(** * Document pipeline and retrieval core of researchportal (server/storage.ts
    and server/routes.ts), shallow embedding.

    Strings are JS strings over the ASCII fragment (one code unit per
    character); database tables are lists in storage order; the external
    services (Postgres full-text matcher, the generation service, the PDF
    parser, the object store) are inputs of the functions that use them. *)

From Stdlib Require Import String Ascii ZArith List Bool Lia.
From Stdlib Require Import Sorting.Sorted Sorting.Permutation.
Import ListNotations.
Open Scope string_scope.
Open Scope Z_scope.
Set Warnings "-register-all -abstract-large-number".

(* ------------------------------------------------------------------ *)
(** ** JS string helpers *)

Definition chr (n : nat) : string := String (ascii_of_nat n) EmptyString.
Definition nl : string := chr 10.
Definition dq : string := chr 34.

(** [s.slice(a, b)] for [0 <= a], clamped like JS. *)
Definition js_slice (s : string) (a b : nat) : string :=
  substring a (b - a) s.

Definition is_js_space (c : ascii) : bool :=
  match nat_of_ascii c with
  | 9 | 10 | 11 | 12 | 13 | 32 => true
  | _ => false
  end%nat.

Fixpoint drop_ws (s : string) : string :=
  match s with
  | EmptyString => EmptyString
  | String c r => if is_js_space c then drop_ws r else s
  end.

Fixpoint rev_str (s : string) (acc : string) : string :=
  match s with
  | EmptyString => acc
  | String c r => rev_str r (String c acc)
  end.

(** [s.trim()] *)
Definition js_trim (s : string) : string :=
  rev_str (drop_ws (rev_str (drop_ws s) EmptyString)) EmptyString.

(** JS truthiness of a string. *)
Definition truthy (s : string) : bool :=
  match s with EmptyString => false | _ => true end.

Definition lower_ascii (c : ascii) : ascii :=
  let n := nat_of_ascii c in
  if (65 <=? n)%nat && (n <=? 90)%nat then ascii_of_nat (n + 32) else c.

Fixpoint js_lower (s : string) : string :=
  match s with
  | EmptyString => EmptyString
  | String c r => String (lower_ascii c) (js_lower r)
  end.

(** [s.includes(sub)] *)
Definition includes (s sub : string) : bool :=
  match index 0 sub s with Some _ => true | None => false end.

(** Decimal rendering of an integer, as in a template literal. *)
Fixpoint digits_of (fuel : nat) (n : N) (acc : string) : string :=
  match fuel with
  | O => acc
  | S f =>
      let d := N.to_nat (N.modulo n 10) in
      let acc' := String (ascii_of_nat (48 + d)) acc in
      if (n <? 10)%N then acc' else digits_of f (N.div n 10) acc'
  end.

Definition show_Z (z : Z) : string :=
  match z with
  | Z0 => "0"
  | Zpos p => digits_of (Pos.size_nat p) (Npos p) EmptyString
  | Zneg p => "-" ++ digits_of (Pos.size_nat p) (Npos p) EmptyString
  end.

Fixpoint join (sep : string) (xs : list string) : string :=
  match xs with
  | [] => EmptyString
  | [x] => x
  | x :: r => x ++ sep ++ join sep r
  end.

(** Postgres [ILIKE]: [%] any run, [_] one character, backslash escapes,
    compared after lower-casing both sides. *)
Fixpoint like_match (fuel : nat) (p t : string) : bool :=
  match fuel with
  | O => false
  | S f =>
      match p with
      | EmptyString => match t with EmptyString => true | _ => false end
      | String "%" pr =>
          like_match f pr t ||
          match t with EmptyString => false | String _ tr => like_match f p tr end
      | String "_" pr =>
          match t with EmptyString => false | String _ tr => like_match f pr tr end
      | String "\" (String c pr) =>
          match t with
          | String d tr => Ascii.eqb c d && like_match f pr tr
          | EmptyString => false
          end
      | String c pr =>
          match t with
          | String d tr => Ascii.eqb c d && like_match f pr tr
          | EmptyString => false
          end
      end
  end.

Definition ilike (t p : string) : bool :=
  like_match (S (String.length p + String.length t)) (js_lower p) (js_lower t).

(** The regular expression [/\{[\s\S]*\}/]: leftmost [{], then greedy up to
    the last [}] after it. Returns [jsonMatch[0]]. *)
Fixpoint last_close (s : string) (pos : nat) (best : option nat) : option nat :=
  match s with
  | EmptyString => best
  | String c r => last_close r (S pos) (if Ascii.eqb c "}" then Some pos else best)
  end.

Definition json_match (s : string) : option string :=
  match index 0 "{" s with
  | None => None
  | Some i =>
      match last_close (substring i (String.length s - i) s) 0 None with
      | None => None
      | Some j => Some (substring i (S j) s)
      end
  end.

(* ------------------------------------------------------------------ *)
(** ** JSON values and [JSON.parse]

    [JSON.parse] over the ASCII fragment: [\u] escapes are accepted for
    code points below 128; numbers are kept as their lexeme. *)

Inductive json : Type :=
  | JNull
  | JBool (b : bool)
  | JNum (lexeme : string)
  | JStr (s : string)
  | JArr (l : list json)
  | JObj (l : list (string * json)).

Definition is_json_ws (c : ascii) : bool :=
  match nat_of_ascii c with 9 | 10 | 13 | 32 => true | _ => false end%nat.

Fixpoint skip_ws (s : string) : string :=
  match s with
  | String c r => if is_json_ws c then skip_ws r else s
  | EmptyString => EmptyString
  end.

Definition is_digit (c : ascii) : bool :=
  let n := nat_of_ascii c in (48 <=? n)%nat && (n <=? 57)%nat.

Fixpoint take_digits (s : string) : string * string :=
  match s with
  | String c r =>
      if is_digit c then let (d, rest) := take_digits r in (String c d, rest)
      else (EmptyString, s)
  | EmptyString => (EmptyString, EmptyString)
  end.

Definition hex_val (c : ascii) : option nat :=
  let n := nat_of_ascii c in
  if (48 <=? n)%nat && (n <=? 57)%nat then Some (n - 48)%nat
  else if (97 <=? n)%nat && (n <=? 102)%nat then Some (n - 87)%nat
  else if (65 <=? n)%nat && (n <=? 70)%nat then Some (n - 55)%nat
  else None.

(** Number lexeme: [-?(0|[1-9][0-9]* )(.[0-9]+)?([eE][+-]?[0-9]+)?] *)
Definition lex_number (s : string) : option (string * string) :=
  let '(sign, s1) := match s with
                     | String "-" r => ("-", r)
                     | _ => (EmptyString, s)
                     end in
  let '(int, s2) := take_digits s1 in
  match int with
  | EmptyString => None
  | String "0" (String _ _) => None
  | _ =>
      let frac := match s2 with
                  | String "." r =>
                      let '(fd, s3) := take_digits r in
                      match fd with
                      | EmptyString => None
                      | _ => Some ("." ++ fd, s3)
                      end
                  | _ => Some (EmptyString, s2)
                  end in
      match frac with
      | None => None
      | Some (fr, s3) =>
          let ex := match s3 with
                    | String e r =>
                        if Ascii.eqb e "e" || Ascii.eqb e "E" then
                          let '(sg, r1) := match r with
                                           | String "+" r' => ("+", r')
                                           | String "-" r' => ("-", r')
                                           | _ => (EmptyString, r)
                                           end in
                          let '(ed, s4) := take_digits r1 in
                          match ed with
                          | EmptyString => None
                          | _ => Some (String e (sg ++ ed), s4)
                          end
                        else Some (EmptyString, s3)
                    | EmptyString => Some (EmptyString, s3)
                    end in
          match ex with
          | None => None
          | Some (e, s4) => Some (sign ++ int ++ fr ++ e, s4)
          end
      end
  end.

(** Single-character escapes: quote, backslash, slash, b, f, n, r, t. *)
Definition simple_escape (e : ascii) : option ascii :=
  let n := nat_of_ascii e in
  if (n =? 34)%nat then Some (ascii_of_nat 34)
  else if (n =? 92)%nat then Some (ascii_of_nat 92)
  else if (n =? 47)%nat then Some (ascii_of_nat 47)
  else if (n =? 98)%nat then Some (ascii_of_nat 8)
  else if (n =? 102)%nat then Some (ascii_of_nat 12)
  else if (n =? 110)%nat then Some (ascii_of_nat 10)
  else if (n =? 114)%nat then Some (ascii_of_nat 13)
  else if (n =? 116)%nat then Some (ascii_of_nat 9)
  else None.

(** String body after the opening quote. *)
Fixpoint lex_string (s : string) : option (string * string) :=
  match s with
  | EmptyString => None
  | String c r =>
      if (nat_of_ascii c =? 34)%nat then Some (EmptyString, r)
      else if (nat_of_ascii c <? 32)%nat then None
      else if (nat_of_ascii c =? 92)%nat then
        match r with
        | String e r1 =>
            match simple_escape e with
            | Some x =>
                match lex_string r1 with
                | Some (body, rest) => Some (String x body, rest)
                | None => None
                end
            | None =>
                if (nat_of_ascii e =? 117)%nat then
                  match r1 with
                  | String h1 (String h2 (String h3 (String h4 r2))) =>
                      match hex_val h1, hex_val h2, hex_val h3, hex_val h4 with
                      | Some a, Some b, Some c', Some d =>
                          let code := (((a * 16 + b) * 16 + c') * 16 + d)%nat in
                          if (code <? 128)%nat then
                            match lex_string r2 with
                            | Some (body, rest) => Some (String (ascii_of_nat code) body, rest)
                            | None => None
                            end
                          else None
                      | _, _, _, _ => None
                      end
                  | _ => None
                  end
                else None
            end
        | EmptyString => None
        end
      else
        match lex_string r with
        | Some (body, rest) => Some (String c body, rest)
        | None => None
        end
  end.

Fixpoint parse_value (fuel : nat) (s : string) : option (json * string) :=
  match fuel with
  | O => None
  | S f =>
      match skip_ws s with
      | String "n" (String "u" (String "l" (String "l" r))) => Some (JNull, r)
      | String "t" (String "r" (String "u" (String "e" r))) => Some (JBool true, r)
      | String "f" (String "a" (String "l" (String "s" (String "e" r)))) =>
          Some (JBool false, r)
      | String "[" r =>
          match skip_ws r with
          | String "]" r1 => Some (JArr [], r1)
          | _ => parse_elems f r []
          end
      | String "{" r =>
          match skip_ws r with
          | String "}" r1 => Some (JObj [], r1)
          | _ => parse_members f r []
          end
      | String c r as t =>
          if Ascii.eqb c (ascii_of_nat 34) then
            match lex_string r with
            | Some (str, rest) => Some (JStr str, rest)
            | None => None
            end
          else
            match lex_number t with
            | Some (lexeme, rest) => Some (JNum lexeme, rest)
            | None => None
            end
      | EmptyString => None
      end
  end
with parse_elems (fuel : nat) (s : string) (acc : list json)
  : option (json * string) :=
  match fuel with
  | O => None
  | S f =>
      match parse_value f s with
      | None => None
      | Some (v, r) =>
          match skip_ws r with
          | String "," r1 => parse_elems f r1 (v :: acc)
          | String "]" r1 => Some (JArr (rev (v :: acc)), r1)
          | _ => None
          end
      end
  end
with parse_members (fuel : nat) (s : string) (acc : list (string * json))
  : option (json * string) :=
  match fuel with
  | O => None
  | S f =>
      match skip_ws s with
      | String q r =>
          if Ascii.eqb q (ascii_of_nat 34) then
            match lex_string r with
            | None => None
            | Some (key, r1) =>
                match skip_ws r1 with
                | String ":" r2 =>
                    match parse_value f r2 with
                    | None => None
                    | Some (v, r3) =>
                        match skip_ws r3 with
                        | String "," r4 => parse_members f r4 ((key, v) :: acc)
                        | String "}" r4 => Some (JObj (rev ((key, v) :: acc)), r4)
                        | _ => None
                        end
                    end
                | _ => None
                end
            end
          else None
      | EmptyString => None
      end
  end.

(** [JSON.parse(s)]; [None] is a thrown [SyntaxError]. *)
Definition JSON_parse (s : string) : option json :=
  match parse_value (2 * String.length s + 2) s with
  | Some (v, rest) => match skip_ws rest with EmptyString => Some v | _ => None end
  | None => None
  end.

(** Property access [o.k] on a parsed value ([undefined] is [None]). *)
Definition json_get (v : json) (k : string) : option json :=
  match v with
  | JObj kvs =>
      (* duplicate keys: the last one wins in [JSON.parse] *)
      fold_left (fun acc kv => if String.eqb (fst kv) k then Some (snd kv) else acc) kvs None
  | _ => None
  end.


(* ------------------------------------------------------------------ *)
(** ** Data model (tables of @shared/schema) *)

Record Document : Type := mkDocument {
  id : Z;
  title : string;
  originalFilename : string;
  filePath : string;
  fileSizeBytes : Z;
  fileType : string;
  processingStatus : string;
  pageCount : option Z;
  fullText : option string;
  documentType : option string;
  aiSummary : option string;
  keyTopics : option (list string);
  sentiment : option string;
  errorMessage : option string;
  uploadDate : Z;
  processedDate : option Z
}.

Record DocumentPage : Type := mkDocumentPage {
  page_documentId : Z;
  pageNumber : Z;
  pageText : option string
}.

(** A row of the [embeddings] table: a text chunk. *)
Record Embedding : Type := mkEmbedding {
  emb_documentId : Z;
  emb_pageNumber : Z;
  chunkText : string;
  chunkIndex : Z;
  tokenCount : Z
}.

Record QaHistory : Type := mkQaHistory {
  qa_question : string;
  qa_answer : option json;
  qa_citations : option json;
  qa_documentIds : list Z
}.

Record DB : Type := mkDB {
  documents : list Document;
  documentPages : list DocumentPage;
  embeddings : list Embedding;
  qaHistory : list QaHistory
}.

(** One property of a [Partial<Document>] passed to [updateDocument]. *)
Inductive DocSet : Type :=
  | SetProcessingStatus (s : string)
  | SetFullText (v : option string)
  | SetAiSummary (v : option string)
  | SetKeyTopics (v : option (list string))
  | SetSentiment (v : option string)
  | SetErrorMessage (v : option string)
  | SetProcessedDate (v : option Z)
  | SetPageCount (v : option Z)
  | SetDocumentType (v : option string).

Definition apply_set (d : Document) (u : DocSet) : Document :=
  let '(mkDocument i t o fp sz ft st pc tx dt su kt se er ud pd) := d in
  match u with
  | SetProcessingStatus v => mkDocument i t o fp sz ft v pc tx dt su kt se er ud pd
  | SetFullText v => mkDocument i t o fp sz ft st pc v dt su kt se er ud pd
  | SetAiSummary v => mkDocument i t o fp sz ft st pc tx dt v kt se er ud pd
  | SetKeyTopics v => mkDocument i t o fp sz ft st pc tx dt su v se er ud pd
  | SetSentiment v => mkDocument i t o fp sz ft st pc tx dt su kt v er ud pd
  | SetErrorMessage v => mkDocument i t o fp sz ft st pc tx dt su kt se v ud pd
  | SetProcessedDate v => mkDocument i t o fp sz ft st pc tx dt su kt se er ud v
  | SetPageCount v => mkDocument i t o fp sz ft st v tx dt su kt se er ud pd
  | SetDocumentType v => mkDocument i t o fp sz ft st pc tx v su kt se er ud pd
  end.

(* ------------------------------------------------------------------ *)
(** ** DatabaseStorage *)

Record DocFilters : Type := mkFilters {
  f_type : option string;
  f_status : option string;
  f_search : option string
}.

Definition no_filters : DocFilters := mkFilters None None None.

(** [orderBy(desc(documents.uploadDate))]: insertion sort, newest first. *)
Fixpoint insert_desc (d : Document) (ds : list Document) : list Document :=
  match ds with
  | [] => [d]
  | d' :: r => if uploadDate d' <=? uploadDate d then d :: ds else d' :: insert_desc d r
  end.

Fixpoint sort_by_upload_desc (ds : list Document) : list Document :=
  match ds with
  | [] => []
  | d :: r => insert_desc d (sort_by_upload_desc r)
  end.

Definition filter_cond (f : DocFilters) (d : Document) : bool :=
  (match f_type f with
   | Some t => if truthy t && negb (String.eqb t "all")
               then match documentType d with Some dt => String.eqb dt t | None => false end
               else true
   | None => true
   end) &&
  (match f_status f with
   | Some s => if truthy s && negb (String.eqb s "all")
               then String.eqb (processingStatus d) s else true
   | None => true
   end) &&
  (match f_search f with
   | Some q => if truthy q
               then ilike (title d) ("%" ++ q ++ "%") || ilike (originalFilename d) ("%" ++ q ++ "%")
               else true
   | None => true
   end).

Definition getDocuments (db : DB) (f : DocFilters) : list Document :=
  sort_by_upload_desc (filter (filter_cond f) (documents db)).

Definition getDocument (db : DB) (i : Z) : option Document :=
  find (fun d => id d =? i) (documents db).

Definition updateDocument (db : DB) (i : Z) (us : list DocSet) : DB :=
  mkDB (map (fun d => if id d =? i then fold_left apply_set us d else d) (documents db))
       (documentPages db) (embeddings db) (qaHistory db).

(** Modelled from the spec: the foreign keys of [documentPages] and
    [embeddings] on [documents.id] (declared in @shared/schema, not in this
    tree) cascade on delete: "Deletion removes the document and cascades to
    its pages and chunks". *)
Definition delete_documents_cascade (db : DB) (i : Z) : DB :=
  mkDB (filter (fun d => negb (id d =? i)) (documents db))
       (filter (fun p => negb (page_documentId p =? i)) (documentPages db))
       (filter (fun e => negb (emb_documentId e =? i)) (embeddings db))
       (qaHistory db).

Definition deleteDocument (db : DB) (i : Z) : DB := delete_documents_cascade db i.

(** [orderBy(documentPages.pageNumber)] *)
Fixpoint insert_page (p : DocumentPage) (ps : list DocumentPage) : list DocumentPage :=
  match ps with
  | [] => [p]
  | p' :: r => if pageNumber p <=? pageNumber p' then p :: ps else p' :: insert_page p r
  end.

Definition getDocumentPages (db : DB) (i : Z) : list DocumentPage :=
  fold_right insert_page [] (filter (fun p => page_documentId p =? i) (documentPages db)).

Definition createDocumentPage (db : DB) (p : DocumentPage) : DB :=
  mkDB (documents db) (documentPages db ++ [p])%list (embeddings db) (qaHistory db).

Definition deleteDocumentPages (db : DB) (i : Z) : DB :=
  mkDB (documents db) (filter (fun p => negb (page_documentId p =? i)) (documentPages db))
       (embeddings db) (qaHistory db).

Definition getEmbeddings (db : DB) (i : Z) : list Embedding :=
  filter (fun e => emb_documentId e =? i) (embeddings db).

Definition createEmbedding (db : DB) (e : Embedding) : DB :=
  mkDB (documents db) (documentPages db) (embeddings db ++ [e])%list (qaHistory db).

Definition deleteDocumentEmbeddings (db : DB) (i : Z) : DB :=
  mkDB (documents db) (documentPages db)
       (filter (fun e => negb (emb_documentId e =? i)) (embeddings db)) (qaHistory db).

(** [to_tsvector('english', chunkText) @@ plainto_tsquery('english', query)]
    is the Postgres matcher [fts chunkText query], an input. *)
Definition fts_tier (fts : string -> string -> bool) (db : DB) (query : string) (limit : nat)
  : list Embedding :=
  firstn limit (filter (fun e => fts (chunkText e) query) (embeddings db)).

Definition ilike_tier (db : DB) (query : string) (limit : nat) : list Embedding :=
  firstn limit (filter (fun e => ilike (chunkText e) ("%" ++ query ++ "%")) (embeddings db)).

Definition searchEmbeddings (fts : string -> string -> bool) (db : DB) (query : string)
  (limit : nat) : list Embedding :=
  match fts_tier fts db query limit with
  | [] => ilike_tier db query limit
  | results => results
  end.

Definition createQaHistory (db : DB) (q : QaHistory) : DB :=
  mkDB (documents db) (documentPages db) (embeddings db) (qaHistory db ++ [q])%list.

(* ------------------------------------------------------------------ *)
(** ** External services *)

(** [message.content[0]] of a generation-service reply. *)
Inductive Content : Type :=
  | TextBlock (text : string)
  | OtherBlock.

(** The prompts sent to the generation service; the template text around
    these parts is fixed in routes.ts. *)
Inductive Prompt : Type :=
  | ClassifyPrompt (docTitle preview : string)
  | AskDocPrompt (docTitle context question : string)
  | AskCorpusPrompt (context question : string).

(** A reply of the generation service: [None] when [messages.create] throws. *)
Definition Generation : Type := Prompt -> option Content.

Inductive Outcome : Type :=
  | Ok
  | Throw (message : string).

(** What [processDocument] observes of the outside world. *)
Record ProcessEnv : Type := mkEnv {
  download : Outcome;                 (* object-store read of [filePath] *)
  pdf_getText : option string;        (* [textResult.text || ""]; [None]: throws *)
  pdf_getInfo : option N;             (* [info.total] (0 when missing); [None]: throws *)
  pdf_destroy : Outcome;              (* [parser.destroy()] *)
  gen : Generation;
  now : Z                             (* [new Date()] *)
}.

(* ------------------------------------------------------------------ *)
(** ** processDocument *)

Definition pdf_failure_text : string :=
  "Failed to extract PDF text. The document may be scanned or image-based.".

Definition ceil_div (a b : nat) : nat := ((a + b - 1) / b)%nat.

(** The slicing loop: [pageCount] slices of [ceil(len / pageCount)] chars. *)
Definition split_pages (text : string) (pageCount : nat) : list string :=
  let len := String.length text in
  let charsPerPage := ceil_div len pageCount in
  map (fun i => js_slice text (i * charsPerPage) (Nat.min ((i + 1) * charsPerPage) len))
      (seq 0 pageCount).

(** The extraction branch: [(extractedText, pageCount, pageTexts)]. *)
Definition extract (env : ProcessEnv) (ft : string) : string * Z * list string :=
  if String.eqb ft "application/pdf" then
    match pdf_getText env, pdf_getInfo env with
    | Some text, Some total =>
        let pc := if (total =? 0)%N then 1%N else total in
        let pageTexts := if (0 <? String.length text)%nat
                         then split_pages text (N.to_nat pc) else [] in
        match pdf_destroy env with
        | Ok => (text, Z.of_N pc, pageTexts)
        | Throw _ => (pdf_failure_text, Z.of_N pc, (pageTexts ++ [pdf_failure_text])%list)
        end
    | _, _ => (pdf_failure_text, 1, [pdf_failure_text])
    end
  else if includes ft "spreadsheet" || includes ft "excel" then
    let t := "Excel/CSV content extraction not yet implemented." in (t, 1, [t])
  else if includes ft "image" then
    let t := "Image OCR not yet implemented." in (t, 1, [t])
  else
    let t := "Unsupported document type for text extraction." in (t, 1, [t]).

Definition MAX_CHUNK : nat := 2000.

(** The page loop, from page position [i]. *)
Fixpoint index_pages (documentId : Z) (i : nat) (pageTexts : list string) (db : DB) : DB :=
  match pageTexts with
  | [] => db
  | pageText :: rest =>
      let db' :=
        if truthy (js_trim pageText) then
          let db1 := createDocumentPage db
                       (mkDocumentPage documentId (Z.of_nat i + 1) (Some pageText)) in
          createEmbedding db1
            (mkEmbedding documentId (Z.of_nat i + 1) (js_slice pageText 0 MAX_CHUNK)
               (Z.of_nat i) (Z.of_nat (ceil_div (String.length pageText) 4)))
        else db in
      index_pages documentId (S i) rest db'
  end.

Definition validTypes : list string :=
  ["annual_report"; "quarterly_earnings"; "concall_transcript"; "industry_report";
   "research_note"; "investor_presentation"; "regulatory_filing"; "other"].

Definition classify (g : Generation) (docTitle extractedText : string) : string :=
  match g (ClassifyPrompt docTitle (js_slice extractedText 0 2000)) with
  | Some (TextBlock t) =>
      let classified := js_trim (js_lower t) in
      if existsb (String.eqb classified) validTypes then classified else "other"
  | _ => "other"
  end.

Definition processDocument (env : ProcessEnv) (documentId : Z) (db : DB) : DB :=
  let db1 := updateDocument db documentId [SetProcessingStatus "processing"] in
  match getDocument db1 documentId with
  | None => db1
  | Some document =>
      match download env with
      | Throw msg =>
          updateDocument db1 documentId
            [SetProcessingStatus "failed"; SetErrorMessage (Some msg)]
      | Ok =>
          let '(extractedText, pageCount, pageTexts) := extract env (fileType document) in
          let db2 := index_pages documentId 0 pageTexts db1 in
          let documentType := classify (gen env) (title document) extractedText in
          updateDocument db2 documentId
            [SetProcessingStatus "completed"; SetProcessedDate (Some (now env));
             SetFullText (Some extractedText); SetPageCount (Some pageCount);
             SetDocumentType (Some documentType)]
      end
  end.

(** The page texts a run hands to the page loop, when it gets there. *)
Definition run_page_texts (env : ProcessEnv) (documentId : Z) (db : DB) : option (list string) :=
  match getDocument (updateDocument db documentId [SetProcessingStatus "processing"]) documentId with
  | None => None
  | Some document =>
      match download env with
      | Throw _ => None
      | Ok => Some (snd (extract env (fileType document)))
      end
  end.

(* ------------------------------------------------------------------ *)
(** ** Route handlers *)

Inductive Response : Type :=
  | RJson (status : Z) (body : json)
  | RNoContent.

Definition err (status : Z) (msg : string) : Response :=
  RJson status (JObj [("error", JStr msg)]).

(** DELETE /api/documents/:id *)
Definition delete_route (db : DB) (i : Z) : Response * DB :=
  (RNoContent, deleteDocument db i).

Definition reprocess_reset : list DocSet :=
  [SetProcessingStatus "pending"; SetFullText None; SetAiSummary None;
   SetKeyTopics None; SetSentiment None; SetErrorMessage None].

(** POST /api/documents/:id/reprocess: the part run before the response;
    [processDocument i] is then started in the background on the returned
    state. *)
Definition reprocess_route (db : DB) (i : Z) : Response * DB :=
  match getDocument db i with
  | None => (err 404 "Document not found", db)
  | Some _ =>
      let db1 := deleteDocumentPages db i in
      let db2 := deleteDocumentEmbeddings db1 i in
      let db3 := updateDocument db2 i reprocess_reset in
      (RJson 200 (JObj [("message", JStr "Document reprocessing started");
                        ("documentId", JNum (show_Z i))]), db3)
  end.

Definition page_text_str (p : DocumentPage) : string :=
  match pageText p with Some t => t | None => "null" end.

Definition has_text (p : DocumentPage) : bool :=
  match pageText p with Some t => truthy t | None => false end.

Definition separator : string := nl ++ nl ++ "---" ++ nl ++ nl.

Definition MAX_CONTEXT : nat := 50000.

(** [content.text.match(/\{[\s\S]*\}/)] then [JSON.parse]; [None]: thrown. *)
Definition parse_reply (fallback : string -> json) (c : option Content) : option json :=
  match c with
  | None => None
  | Some OtherBlock => None
  | Some (TextBlock t) =>
      match json_match t with
      | None => Some (fallback t)
      | Some m => JSON_parse m
      end
  end.

Definition doc_fallback (t : string) : json :=
  JObj [("answer", JStr t); ("citations", JArr [])].

Definition corpus_fallback (t : string) : json :=
  JObj [("answer", JStr t); ("citations", JArr []); ("insufficientEvidence", JBool false)].

(** POST /api/documents/:id/ask; also returns the generation calls made. *)
Definition doc_ask (g : Generation) (db : DB) (i : Z) (question : string)
  : Response * list Prompt :=
  if negb (truthy question) then (err 400 "Question is required", [])
  else
    match getDocument db i with
    | None => (err 404 "Document not found", [])
    | Some document =>
        let pagesWithText := filter has_text (getDocumentPages db i) in
        match pagesWithText with
        | [] =>
            (RJson 200 (JObj [("answer", JStr "No text content available in this document to answer your question.");
                              ("citations", JArr [])]), [])
        | _ =>
            let context :=
              js_slice (join separator
                          (map (fun p => "[Page " ++ show_Z (pageNumber p) ++ "]" ++ nl ++ page_text_str p)
                               pagesWithText)) 0 MAX_CONTEXT in
            let prompt := AskDocPrompt (title document) context question in
            match parse_reply doc_fallback (g prompt) with
            | None => (err 500 "Failed to answer question", [prompt])
            | Some v => (RJson 200 v, [prompt])
            end
        end
    end.

(** One search result row, [{documentId, documentTitle, documentType,
    pageNumber, chunkText, score}]. *)
Record SearchResult : Type := mkResult {
  r_documentId : Z;
  r_documentTitle : string;
  r_documentType : option string;
  r_pageNumber : Z;
  r_chunkText : string;
  r_score : Z
}.

Definition or_else (a b : string) : string := if truthy a then a else b.

(** The document-title fallback of POST /api/search. *)
Definition title_fallback (db : DB) (query : string) : list SearchResult :=
  map (fun doc =>
         let pages := getDocumentPages db (id doc) in
         let first_preview :=
           match pages with
           | p :: _ => match pageText p with Some t => js_slice t 0 300 | None => "" end
           | [] => ""
           end in
         let full_preview :=
           match fullText doc with Some t => js_slice t 0 300 | None => "" end in
         mkResult (id doc) (title doc)
           (match documentType doc with Some t => if truthy t then Some t else None | None => None end)
           1 (or_else first_preview (or_else full_preview "No preview available")) 1)
      (firstn 10 (getDocuments db (mkFilters None None (Some query)))).

Definition chunk_result (db : DB) (e : Embedding) : SearchResult :=
  let doc := getDocument db (emb_documentId e) in
  mkResult (emb_documentId e)
    (match doc with Some d => or_else (title d) "Unknown" | None => "Unknown" end)
    (match doc with
     | Some d => match documentType d with Some t => if truthy t then Some t else None | None => None end
     | None => None
     end)
    (emb_pageNumber e) (chunkText e) 1.

Definition opt_str (o : option string) : json :=
  match o with Some t => JStr t | None => JNull end.

Definition result_json (r : SearchResult) : json :=
  JObj [("documentId", JNum (show_Z (r_documentId r)));
        ("documentTitle", JStr (r_documentTitle r));
        ("documentType", opt_str (r_documentType r));
        ("pageNumber", JNum (show_Z (r_pageNumber r)));
        ("chunkText", JStr (r_chunkText r));
        ("score", JNum (show_Z (r_score r)))].

Definition results_response (rs : list SearchResult) : Response :=
  RJson 200 (JObj [("results", JArr (map result_json rs));
                   ("total", JNum (show_Z (Z.of_nat (List.length rs))))]).

(** POST /api/search *)
Definition search_route (fts : string -> string -> bool) (db : DB) (query : string) : Response :=
  if negb (truthy query) then err 400 "Query is required"
  else
    match searchEmbeddings fts db query 20 with
    | [] => results_response (title_fallback db query)
    | found => results_response (map (chunk_result db) found)
    end.

(** An entry of [allContent] / [chunksWithDocs]: the page is already
    rendered as it appears in the [Source] header. *)
Record ContextItem : Type := mkItem {
  c_documentId : Z;
  c_documentTitle : string;
  c_page : string;
  c_chunkText : string
}.

Definition render_context (items : list ContextItem) : string :=
  join separator
    (map (fun '(n, c) => "[Source " ++ show_Z (Z.of_nat n + 1) ++ ": " ++ c_documentTitle c
                         ++ ", Page " ++ c_page c ++ "]" ++ nl ++ c_chunkText c)
         (combine (seq 0 (List.length items)) items)).

(** The [allContent] loop over the documents it is given. *)
Fixpoint fallback_content (db : DB) (docs : list Document) : list ContextItem :=
  match docs with
  | [] => []
  | doc :: rest =>
      let pages := getDocumentPages db (id doc) in
      let from_pages :=
        map (fun p => mkItem (id doc) (title doc) (show_Z (pageNumber p)) (page_text_str p))
            (filter has_text pages) in
      let from_full :=
        match pages, fullText doc with
        | [], Some t => if truthy t then [mkItem (id doc) (title doc) "1" t] else []
        | _, _ => []
        end in
      (from_pages ++ from_full ++ fallback_content db rest)%list
  end.

(** [Array.from(new Set(ids))]: first occurrences, in order. *)
Fixpoint dedup (seen : list Z) (xs : list Z) : list Z :=
  match xs with
  | [] => []
  | x :: r => if existsb (Z.eqb x) seen then dedup seen r else x :: dedup (x :: seen) r
  end.

Definition insufficient (msg : string) : Response :=
  RJson 200 (JObj [("answer", JStr msg); ("citations", JArr []);
                   ("insufficientEvidence", JBool true)]).

(** The documents the fallback branch reads: [allDocs.slice(0, 5)]. *)
Definition fallback_docs (db : DB) : list Document := firstn 5 (getDocuments db no_filters).

(** Generation call, history record and reply shared by both branches. *)
Definition answer_and_record (g : Generation) (db : DB) (question context : string)
  (items : list ContextItem) : Response * DB * list Prompt :=
  let prompt := AskCorpusPrompt context question in
  match parse_reply corpus_fallback (g prompt) with
  | None => (err 500 "Failed to answer question", db, [prompt])
  | Some response =>
      let db' := createQaHistory db
                   (mkQaHistory question (json_get response "answer")
                      (json_get response "citations")
                      (dedup [] (map c_documentId items))) in
      (RJson 200 response, db', [prompt])
  end.

(** POST /api/qa/ask; also returns the generation calls made. *)
Definition qa_ask (fts : string -> string -> bool) (g : Generation) (db : DB)
  (question : string) : Response * DB * list Prompt :=
  if negb (truthy question) then (err 400 "Question is required", db, [])
  else
    match searchEmbeddings fts db question 10 with
    | [] =>
        match getDocuments db no_filters with
        | [] =>
            (insufficient "No documents have been uploaded yet. Please upload some documents first.",
             db, [])
        | _ =>
            match fallback_content db (fallback_docs db) with
            | [] =>
                (insufficient "I cannot answer this question - the documents appear to have no extractable text content.",
                 db, [])
            | allContent =>
                answer_and_record g db question
                  (js_slice (render_context allContent) 0 MAX_CONTEXT) allContent
            end
        end
    | relevantChunks =>
        let chunksWithDocs :=
          map (fun e =>
                 mkItem (emb_documentId e)
                   (match getDocument db (emb_documentId e) with
                    | Some d => or_else (title d) "Unknown Document"
                    | None => "Unknown Document"
                    end)
                   (if emb_pageNumber e =? 0 then "N/A" else show_Z (emb_pageNumber e))
                   (chunkText e))
              relevantChunks in
        answer_and_record g db question (render_context chunksWithDocs) chunksWithDocs
    end.

(** Rows a run stores, in the order it stores them. *)
Fixpoint page_rows (documentId : Z) (i : nat) (pageTexts : list string) : list DocumentPage :=
  match pageTexts with
  | [] => []
  | t :: rest =>
      ((if truthy (js_trim t)
        then [mkDocumentPage documentId (Z.of_nat i + 1) (Some t)] else []) ++
       page_rows documentId (S i) rest)%list
  end.

Fixpoint emb_rows (documentId : Z) (i : nat) (pageTexts : list string) : list Embedding :=
  match pageTexts with
  | [] => []
  | t :: rest =>
      ((if truthy (js_trim t)
        then [mkEmbedding documentId (Z.of_nat i + 1) (js_slice t 0 MAX_CHUNK) (Z.of_nat i)
                (Z.of_nat (ceil_div (String.length t) 4))] else []) ++
       emb_rows documentId (S i) rest)%list
  end.

(** Positions (from [i]) of the page texts that are not whitespace only. *)
Fixpoint nonblank_from (i : nat) (pageTexts : list string) : list nat :=
  match pageTexts with
  | [] => []
  | t :: rest =>
      if truthy (js_trim t) then i :: nonblank_from (S i) rest else nonblank_from (S i) rest
  end.

Definition pages_of (db : DB) (i : Z) : list DocumentPage :=
  filter (fun p => page_documentId p =? i) (documentPages db).

(** Every chunk row belongs to a stored document (the foreign key). *)
Definition chunks_owned (db : DB) : Prop :=
  forall e, In e (embeddings db) -> exists d, In d (documents db) /\ id d = emb_documentId e.

(** The document fields the reprocess reset does not list. *)
Definition other_fields (d : Document)
  : Z * string * string * string * Z * string * option Z * option string * Z * option Z :=
  (id d, title d, originalFilename d, filePath d, fileSizeBytes d, fileType d,
   pageCount d, documentType d, uploadDate d, processedDate d).

(** A word-level stand-in for the Postgres english full-text match (no
    stemming, no stop words): every query word is a word of the chunk. *)
Definition is_alnum (c : ascii) : bool :=
  let n := nat_of_ascii c in
  (((48 <=? n) && (n <=? 57)) || ((97 <=? n) && (n <=? 122)) || ((65 <=? n) && (n <=? 90)))%nat.

Fixpoint words_acc (s : string) (cur : string) : list string :=
  match s with
  | EmptyString => if truthy cur then [cur] else []
  | String c r =>
      if is_alnum c then words_acc r (cur ++ String (lower_ascii c) EmptyString)
      else if truthy cur then cur :: words_acc r EmptyString else words_acc r EmptyString
  end.

Definition words (s : string) : list string := words_acc s EmptyString.

Definition word_fts (chunk query : string) : bool :=
  let qs := words query in
  negb (Nat.eqb (List.length qs) 0) &&
  forallb (fun w => existsb (String.eqb w) (words chunk)) qs.

(** Sample rows. *)
Definition doc_q3 : Document :=
  mkDocument 1 "Q3 Report" "q3.pdf" "/objects/uploads/1" 1024 "application/pdf" "pending"
    None None None None None None None 20 None.

Definition doc_old : Document :=
  mkDocument 2 "Old memo" "old.pdf" "/objects/uploads/2" 512 "application/pdf" "completed"
    (Some 1) (Some "Revenue grew.") (Some "research_note") None None None None 10 (Some 11).

Definition db_fresh : DB := mkDB [doc_q3; doc_old] [] [] [].

Definition db_empty : DB := mkDB [] [] [] [].

Definition no_reply : Generation := fun _ => None.

Definition reply_with (t : string) : Generation := fun _ => Some (TextBlock t).

Definition pdf_env (text : string) (total : N) : ProcessEnv :=
  mkEnv Ok (Some text) (Some total) Ok no_reply 100.

Definition broken_pdf_env : ProcessEnv := mkEnv Ok None None Ok no_reply 100.

Fixpoint repeat_char (n : nat) (c : ascii) : string :=
  match n with O => EmptyString | S k => String c (repeat_char k c) end.

(** What the caller gets for a text reply [t] of the generation service,
    by design: with no [{...}] block, the raw text as the answer; with one
    that parses, the parsed value. *)
Definition reply_by_design (fallback : string -> json) (t : string) (r : Response) : Prop :=
  (json_match t = None -> r = RJson 200 (fallback t)) /\
  (forall m v, json_match t = Some m -> JSON_parse m = Some v -> r = RJson 200 v).

Definition question_doc : Document :=
  mkDocument 3 "FY24 Annual" "fy24.pdf" "/objects/uploads/3" 2048 "application/pdf" "completed"
    (Some 1) (Some "Net profit rose 12%.") (Some "annual_report") None None None None 30 (Some 31).

Definition db_with_page : DB :=
  mkDB [question_doc] [mkDocumentPage 3 1 (Some "Net profit rose 12%.")] [] [].

Definition db_substring : DB :=
  mkDB [doc_q3] [] [mkEmbedding 1 1 "abcxyzdef" 0 3] [].

(** Newest first. *)
Definition newer_or_same (a b : Document) : Prop := uploadDate b <= uploadDate a.

(* ------------------------------------------------------------------ *)
(** ** Further handlers and helpers *)




Definition count_status (ds : list Document) (st : string) : nat :=
  List.length (filter (fun d => String.eqb (processingStatus d) st) ds).

Record DocumentStats : Type := mkStats {
  totalDocuments : nat;
  processingDocuments : nat;
  completedDocuments : nat;
  failedDocuments : nat;
  recentDocuments : list Document
}.

(** [storage.getDocumentStats()] *)
Definition getDocumentStats (db : DB) : DocumentStats :=
  let allDocs := documents db in
  mkStats (List.length allDocs) (count_status allDocs "processing")
    (count_status allDocs "completed") (count_status allDocs "failed")
    (firstn 5 (sort_by_upload_desc (documents db))).

(** The extension part of [/\.[^/.]+$/]: non-empty, no [/] and no [.]. *)
Fixpoint ext_tail_ok (r : string) : bool :=
  match r with
  | EmptyString => false
  | String c EmptyString => negb (Ascii.eqb c "/") && negb (Ascii.eqb c ".")
  | String c r' => negb (Ascii.eqb c "/") && negb (Ascii.eqb c ".") && ext_tail_ok r'
  end.

(** [originalname.replace(/\.[^/.]+$/, "")]: the leftmost match is cut. *)
Fixpoint strip_extension (s : string) : string :=
  match s with
  | EmptyString => EmptyString
  | String c r => if Ascii.eqb c "." && ext_tail_ok r then EmptyString else String c (strip_extension r)
  end.

(** [handleSearch] / [handleAsk] of the search page: the text is sent only
    when its trimmed form is non-empty. *)
Definition client_submit (text : string) : option string :=
  if truthy (js_trim text) then Some text else None.

(** [fold_right] of string concatenation. *)
Definition concat_str (xs : list string) : string := fold_right append EmptyString xs.

(** The characters with a meaning in a [LIKE] pattern. *)
Definition like_special (c : ascii) : bool :=
  Ascii.eqb c "%" || Ascii.eqb c "_" || Ascii.eqb c "\".

(* ================================================================== *)
(** * Properties *)

(** ** Store lemmas *)

Lemma id_fold_apply_set : forall us d, id (fold_left apply_set us d) = id d.
Proof.
  induction us as [|u us IH]; intros d; simpl; [reflexivity|].
  rewrite IH. destruct d, u; reflexivity.
Qed.

Lemma getDocument_update : forall db i us,
  getDocument (updateDocument db i us) i =
  option_map (fun d => fold_left apply_set us d) (getDocument db i).
Proof.
  intros [ds ps es qs] i us; unfold getDocument, updateDocument; simpl.
  induction ds as [|d r IH]; simpl; [reflexivity|].
  destruct (id d =? i) eqn:E; simpl.
  - rewrite id_fold_apply_set, E. reflexivity.
  - rewrite E. exact IH.
Qed.

Lemma getDocument_update_other : forall db i j us, j <> i ->
  getDocument (updateDocument db i us) j = getDocument db j.
Proof.
  intros [ds ps es qs] i j us Hne; unfold getDocument, updateDocument; simpl.
  induction ds as [|d r IH]; simpl; [reflexivity|].
  destruct (id d =? i) eqn:E; simpl.
  - rewrite id_fold_apply_set.
    apply Z.eqb_eq in E; subst.
    replace (id d =? j) with false by (symmetry; apply Z.eqb_neq; congruence).
    exact IH.
  - destruct (id d =? j); [reflexivity | exact IH].
Qed.

Lemma getDocument_some : forall db i d, getDocument db i = Some d -> In d (documents db) /\ id d = i.
Proof.
  intros db i d H; unfold getDocument in H.
  apply find_some in H as [Hin Heq]. apply Z.eqb_eq in Heq. auto.
Qed.

Lemma index_pages_rows : forall pts documentId n db,
  index_pages documentId n pts db =
  mkDB (documents db) (documentPages db ++ page_rows documentId n pts)
       (embeddings db ++ emb_rows documentId n pts) (qaHistory db).
Proof.
  induction pts as [|t rest IH]; intros documentId n [ds ps es qs]; simpl.
  - rewrite !app_nil_r. reflexivity.
  - destruct (truthy (js_trim t)); rewrite IH; simpl; rewrite <- ?app_assoc; reflexivity.
Qed.

Lemma getDocument_index_pages : forall documentId n pts db i,
  getDocument (index_pages documentId n pts db) i = getDocument db i.
Proof. intros; rewrite index_pages_rows; reflexivity. Qed.

Lemma pages_of_update : forall db i j us, pages_of (updateDocument db i us) j = pages_of db j.
Proof. reflexivity. Qed.

Lemma embeddings_update : forall db i us, embeddings (updateDocument db i us) = embeddings db.
Proof. reflexivity. Qed.

(** ** C7: deletion *)

(** C7. Deleting a document (DELETE /api/documents/:id) removes the document
    row and, through the cascading foreign keys, every page row and chunk row
    of that document: nothing left refers to the deleted id. *)
Theorem delete_route_cascades : forall db i,
  fst (delete_route db i) = RNoContent /\
  (forall d, In d (documents (snd (delete_route db i))) -> id d <> i) /\
  (forall p, In p (documentPages (snd (delete_route db i))) -> page_documentId p <> i) /\
  (forall e, In e (embeddings (snd (delete_route db i))) -> emb_documentId e <> i).
Proof.
  intros db i; simpl.
  repeat split; intros x Hx; apply filter_In in Hx as [_ H];
    apply negb_true_iff, Z.eqb_neq in H; exact H.
Qed.

(** ** C10: the reprocess reset *)

(** C10. For an existing document, the reprocess route sets exactly
    processingStatus (to pending), fullText, aiSummary, keyTopics, sentiment
    and errorMessage (to null); every other field (id, title,
    originalFilename, filePath, fileSizeBytes, fileType, pageCount,
    documentType, uploadDate, processedDate) keeps its value, also after the
    new run marks the document processing, and for good when that run
    fails before completing. *)
Theorem reprocess_resets_only_derived : forall db i d,
  getDocument db i = Some d ->
  exists d',
    getDocument (snd (reprocess_route db i)) i = Some d' /\
    processingStatus d' = "pending" /\ fullText d' = None /\ aiSummary d' = None /\
    keyTopics d' = None /\ sentiment d' = None /\ errorMessage d' = None /\
    other_fields d' = other_fields d /\
    option_map other_fields
      (getDocument (updateDocument (snd (reprocess_route db i)) i
                      [SetProcessingStatus "processing"]) i) = Some (other_fields d) /\
    (forall env msg, download env = Throw msg ->
       option_map other_fields
         (getDocument (processDocument env i (snd (reprocess_route db i))) i)
       = Some (other_fields d)).
Proof.
  intros db i d Hd.
  assert (Hr : getDocument (snd (reprocess_route db i)) i =
               Some (fold_left apply_set reprocess_reset d)).
  { unfold reprocess_route; rewrite Hd; simpl snd.
    rewrite getDocument_update. change (getDocument (deleteDocumentEmbeddings
      (deleteDocumentPages db i) i) i) with (getDocument db i). rewrite Hd. reflexivity. }
  exists (fold_left apply_set reprocess_reset d).
  split; [exact Hr|].
  split; [destruct d; reflexivity|].
  split; [destruct d; reflexivity|].
  split; [destruct d; reflexivity|].
  split; [destruct d; reflexivity|].
  split; [destruct d; reflexivity|].
  split; [destruct d; reflexivity|].
  split; [destruct d; reflexivity|].
  split.
  - rewrite getDocument_update, Hr. destruct d; reflexivity.
  - intros env msg Hdl. unfold processDocument.
    rewrite getDocument_update, Hr. simpl option_map. cbv iota beta.
    rewrite Hdl. rewrite getDocument_update, getDocument_update, Hr.
    destruct d; reflexivity.
Qed.

(** ** C6: a PDF the parser rejects *)

Lemma extract_pdf_failure : forall env,
  (pdf_getText env = None \/ pdf_getInfo env = None) ->
  extract env "application/pdf" = (pdf_failure_text, 1, [pdf_failure_text]).
Proof.
  intros env [E|E]; unfold extract; simpl; rewrite E; [reflexivity|].
  destruct (pdf_getText env); reflexivity.
Qed.

(** C6. When the PDF parser throws (in [getText] or [getInfo]), extraction
    yields exactly one page text, the failure sentinel; the run stores
    exactly one page (page 1, the sentinel) and still marks the document
    completed. Assumes the object-store read succeeds and the document had
    no page rows before the run (fresh upload or after reprocess). *)
Theorem pdf_parse_failure_completes : forall env db i d,
  getDocument db i = Some d ->
  fileType d = "application/pdf" ->
  download env = Ok ->
  (pdf_getText env = None \/ pdf_getInfo env = None) ->
  pages_of db i = [] ->
  snd (extract env (fileType d)) = [pdf_failure_text] /\
  map (fun p => (pageNumber p, pageText p)) (getDocumentPages (processDocument env i db) i)
    = [(1, Some pdf_failure_text)] /\
  option_map processingStatus (getDocument (processDocument env i db) i) = Some "completed".
Proof.
  intros env db i d Hd Hft Hdl Hfail Hnone.
  rewrite Hft, (extract_pdf_failure env Hfail).
  split; [reflexivity|].
  unfold processDocument.
  rewrite getDocument_update, Hd. simpl option_map. cbv iota beta.
  rewrite Hdl. cbn [fileType fold_left].
  replace (fileType (apply_set d (SetProcessingStatus "processing"))) with "application/pdf"
    by (destruct d; simpl in *; congruence).
  rewrite (extract_pdf_failure env Hfail). cbv iota beta.
  split.
  - unfold getDocumentPages. fold (pages_of (updateDocument (index_pages i 0 [pdf_failure_text]
      (updateDocument db i [SetProcessingStatus "processing"])) i
      [SetProcessingStatus "completed"; SetProcessedDate (Some (now env));
       SetFullText (Some pdf_failure_text); SetPageCount (Some 1);
       SetDocumentType (Some (classify (gen env) (title (apply_set d (SetProcessingStatus "processing"))) pdf_failure_text))]) i).
    rewrite pages_of_update. unfold pages_of. rewrite index_pages_rows. simpl documentPages.
    rewrite filter_app. fold (pages_of db i). rewrite Hnone. simpl. rewrite Z.eqb_refl. reflexivity.
  - rewrite getDocument_update, getDocument_index_pages, getDocument_update, Hd.
    destruct d; reflexivity.
Qed.

Lemma parse_reply_text : forall fb t,
  parse_reply fb (Some (TextBlock t)) =
  match json_match t with None => Some (fb t) | Some m => JSON_parse m end.
Proof. reflexivity. Qed.

Lemma reply_by_design_of : forall fb t r,
  match parse_reply fb (Some (TextBlock t)) with
  | None => True
  | Some v => r = RJson 200 v
  end -> reply_by_design fb t r.
Proof.
  intros fb t r H; split.
  - intros E. rewrite parse_reply_text, E in H. exact H.
  - intros m v E Hp. rewrite parse_reply_text, E, Hp in H. exact H.
Qed.

Lemma answer_and_record_reply : forall g db q c items r db' p t,
  answer_and_record g db q c items = (r, db', [p]) ->
  g p = Some (TextBlock t) ->
  reply_by_design corpus_fallback t r.
Proof.
  intros g db q c items r db' p t H Hg.
  unfold answer_and_record in H.
  destruct (parse_reply corpus_fallback (g (AskCorpusPrompt c q))) eqn:E;
    inversion H; subst; rewrite Hg in E; apply reply_by_design_of; rewrite E; auto.
Qed.

(** ** C1: replies of the generation service that are not JSON *)

(** C1 (as amended). In both ask routes (document-scoped and corpus-wide),
    once the generation service has been called and returned text [t]: if
    [t] holds no [{...}] block, the request succeeds with [t] as the answer
    and an empty citation list (plus insufficientEvidence false for the
    corpus-wide route); if it holds one, the block from the first [{] to the
    last [}] is what gets parsed, and when it parses the parsed value is the
    response instead of the raw text. *)
Theorem ask_reply_by_design : forall g t,
  (forall db i q r p, doc_ask g db i q = (r, [p]) -> g p = Some (TextBlock t) ->
     reply_by_design doc_fallback t r) /\
  (forall fts db q r db' p, qa_ask fts g db q = (r, db', [p]) -> g p = Some (TextBlock t) ->
     reply_by_design corpus_fallback t r).
Proof.
  intros g t; split.
  - intros db i q r p H Hg. unfold doc_ask in H.
    destruct (negb (truthy q)); [discriminate H|].
    destruct (getDocument db i) as [document|]; [|discriminate H].
    destruct (filter has_text (getDocumentPages db i)) as [|p0 ps]; [discriminate H|].
    cbv zeta in H. set (P := AskDocPrompt _ _ _) in H.
    destruct (parse_reply doc_fallback (g P)) eqn:E; injection H as Hr Hp;
      rewrite Hp, Hg in E; apply reply_by_design_of; rewrite E; auto.
  - intros fts db q r db' p H Hg. unfold qa_ask in H.
    destruct (negb (truthy q)); [discriminate H|].
    destruct (searchEmbeddings fts db q 10) as [|e es].
    + destruct (getDocuments db no_filters) as [|d ds]; [discriminate H|].
      destruct (fallback_content db (fallback_docs db)) as [|c cs]; [discriminate H|].
      eapply answer_and_record_reply; eassumption.
    + eapply answer_and_record_reply; eassumption.
Qed.

(** C1 does not hold as stated: a reply that is not itself a JSON object
    ([ok {}]) still carries a brace block, which is parsed and returned in
    place of the raw text. *)
Lemma ask_reply_not_raw_text :
  JSON_parse "ok {}" = None /\
  fst (doc_ask (reply_with "ok {}") db_with_page 3 "What was net profit?") = RJson 200 (JObj []) /\
  snd (doc_ask (reply_with "ok {}") db_with_page 3 "What was net profit?") <> [] /\
  RJson 200 (JObj []) <> RJson 200 (doc_fallback "ok {}").
Proof.
  split; [reflexivity|]. split; [vm_compute; reflexivity|]. split; [discriminate|].
  discriminate.
Qed.

(** A brace block that does not parse makes [JSON.parse] throw: the
    request fails with status 500. *)
Lemma ask_reply_invalid_block :
  fst (doc_ask (reply_with "see {draft}") db_with_page 3 "What was net profit?")
  = err 500 "Failed to answer question".
Proof. vm_compute. reflexivity. Qed.

(** ** C8: corpus-wide ask over an empty corpus *)

Lemma owned_no_documents : forall db, documents db = [] -> chunks_owned db -> embeddings db = [].
Proof.
  intros db Hd Ho. destruct (embeddings db) as [|e es] eqn:He; [reflexivity|].
  destruct (Ho e) as [d [Hin _]]; [rewrite He; left; reflexivity|].
  rewrite Hd in Hin. destruct Hin.
Qed.

(** C8 (as amended). A corpus-wide ask with a non-empty question, issued
    when no document exists (and so, chunks being owned by documents, no
    chunk either), answers with insufficientEvidence true and an empty
    citation list, leaves the store unchanged and makes no generation call. *)
Theorem corpus_ask_no_documents : forall fts g db q,
  truthy q = true ->
  documents db = [] ->
  chunks_owned db ->
  qa_ask fts g db q =
  (insufficient "No documents have been uploaded yet. Please upload some documents first.", db, []).
Proof.
  intros fts g db q Hq Hd Ho.
  pose proof (owned_no_documents db Hd Ho) as He.
  unfold qa_ask, searchEmbeddings, fts_tier, ilike_tier, getDocuments.
  rewrite Hq, He, Hd. reflexivity.
Qed.

(** C8 does not hold as stated: an ask without a question is refused with
    status 400 before anything else, and its body has no insufficientEvidence. *)
Lemma corpus_ask_empty_question :
  qa_ask word_fts no_reply db_empty "" = (err 400 "Question is required", db_empty, []) /\
  json_get (JObj [("error", JStr "Question is required")]) "insufficientEvidence" = None.
Proof. split; reflexivity. Qed.

(** Chunk ownership is kept by the operations that write chunks or delete
    documents. *)
Lemma owned_update : forall db i us, chunks_owned db -> chunks_owned (updateDocument db i us).
Proof.
  intros db i us Ho e He. destruct (Ho e He) as [d [Hin Hid]].
  exists (if id d =? i then fold_left apply_set us d else d). split.
  - unfold updateDocument; simpl. apply in_map_iff. exists d. auto.
  - destruct (id d =? i); [rewrite id_fold_apply_set|]; exact Hid.
Qed.

Lemma emb_rows_owner : forall documentId n pts e,
  In e (emb_rows documentId n pts) -> emb_documentId e = documentId.
Proof.
  intros documentId n pts; revert n.
  induction pts as [|t rest IH]; intros n e Hin; simpl in Hin; [destruct Hin|].
  apply in_app_or in Hin as [Hin|Hin].
  - destruct (truthy (js_trim t)); simpl in Hin; [|destruct Hin].
    destruct Hin as [<-|[]]; reflexivity.
  - eapply IH; exact Hin.
Qed.

Lemma processDocument_owned : forall env i db, chunks_owned db -> chunks_owned (processDocument env i db).
Proof.
  intros env i db Ho. unfold processDocument.
  pose proof (owned_update db i [SetProcessingStatus "processing"] Ho) as Ho1.
  destruct (getDocument (updateDocument db i [SetProcessingStatus "processing"]) i)
    as [document|] eqn:Hg; [|exact Ho1].
  destruct (download env); [|apply owned_update; exact Ho1].
  destruct (extract env (fileType document)) as [[extractedText pageCount] pageTexts].
  apply owned_update. intros e He.
  rewrite index_pages_rows in He. simpl in He. apply in_app_or in He as [He|He].
  - destruct (Ho1 e He) as [d [Hin Hid]]. exists d. rewrite index_pages_rows. auto.
  - apply getDocument_some in Hg as [Hin Hid]. exists document.
    rewrite index_pages_rows. split; [exact Hin|].
    rewrite (emb_rows_owner _ _ _ _ He). exact Hid.
Qed.

Lemma delete_route_owned : forall db i, chunks_owned db -> chunks_owned (snd (delete_route db i)).
Proof.
  intros db i Ho e He. simpl in He. apply filter_In in He as [He Hne].
  destruct (Ho e He) as [d [Hin Hid]]. exists d. split; [|exact Hid].
  simpl. apply filter_In. split; [exact Hin|]. rewrite Hid. exact Hne.
Qed.

Lemma reprocess_route_owned : forall db i, chunks_owned db -> chunks_owned (snd (reprocess_route db i)).
Proof.
  intros db i Ho. unfold reprocess_route.
  destruct (getDocument db i); [|exact Ho].
  apply owned_update. intros e He. simpl in He. apply filter_In in He as [He _].
  exact (Ho e He).
Qed.

(** ** C2, C3, C4: the page loop *)

Lemma substring_length_le : forall s n m, (String.length (substring n m s) <= m)%nat.
Proof.
  induction s as [|c s IH]; intros [|n] [|m]; simpl; try lia.
  - specialize (IH 0%nat m). lia.
  - apply IH.
  - apply IH.
Qed.

Lemma filter_all_true : forall {A} (f : A -> bool) l,
  (forall x, In x l -> f x = true) -> filter f l = l.
Proof.
  intros A f l H; induction l as [|x r IH]; simpl; [reflexivity|].
  rewrite (H x (or_introl eq_refl)), IH; [reflexivity|].
  intros y Hy; apply H; right; exact Hy.
Qed.

Lemma page_rows_owner : forall documentId n pts p,
  In p (page_rows documentId n pts) -> page_documentId p = documentId.
Proof.
  intros documentId n pts; revert n.
  induction pts as [|t rest IH]; intros n p Hin; simpl in Hin; [destruct Hin|].
  apply in_app_or in Hin as [Hin|Hin].
  - destruct (truthy (js_trim t)); simpl in Hin; [|destruct Hin].
    destruct Hin as [<-|[]]; reflexivity.
  - eapply IH; exact Hin.
Qed.

Lemma emb_rows_index : forall documentId n pts,
  map chunkIndex (emb_rows documentId n pts) = map Z.of_nat (nonblank_from n pts).
Proof.
  intros documentId n pts; revert n.
  induction pts as [|t rest IH]; intros n; simpl; [reflexivity|].
  destruct (truthy (js_trim t)); simpl; rewrite IH; reflexivity.
Qed.

Lemma page_rows_number : forall documentId n pts,
  map pageNumber (page_rows documentId n pts) = map (fun k => Z.of_nat k + 1) (nonblank_from n pts).
Proof.
  intros documentId n pts; revert n.
  induction pts as [|t rest IH]; intros n; simpl; [reflexivity|].
  destruct (truthy (js_trim t)); simpl; rewrite IH; reflexivity.
Qed.

Lemma emb_rows_text_bound : forall documentId n pts e,
  In e (emb_rows documentId n pts) -> (String.length (chunkText e) <= MAX_CHUNK)%nat.
Proof.
  intros documentId n pts; revert n.
  induction pts as [|t rest IH]; intros n e Hin; simpl in Hin; [destruct Hin|].
  apply in_app_or in Hin as [Hin|Hin].
  - destruct (truthy (js_trim t)); simpl in Hin; [|destruct Hin].
    destruct Hin as [<-|[]]. simpl chunkText. unfold js_slice.
    apply substring_length_le.
  - eapply IH; exact Hin.
Qed.

Lemma nonblank_from_ge : forall pts n k, In k (nonblank_from n pts) -> (n <= k)%nat.
Proof.
  induction pts as [|t rest IH]; intros n k Hin; simpl in Hin; [destruct Hin|].
  destruct (truthy (js_trim t)).
  - destruct Hin as [<-|Hin]; [lia|]. apply IH in Hin. lia.
  - apply IH in Hin. lia.
Qed.

Lemma nonblank_from_sorted : forall pts n,
  StronglySorted lt (nonblank_from n pts).
Proof.
  induction pts as [|t rest IH]; intros n; simpl; [constructor|].
  destruct (truthy (js_trim t)); [|apply IH].
  constructor; [apply IH|]. apply Forall_forall. intros k Hk.
  apply nonblank_from_ge in Hk. lia.
Qed.

Lemma StronglySorted_map_mono : forall {A B} (R : A -> A -> Prop) (S : B -> B -> Prop) (f : A -> B) l,
  (forall x y, R x y -> S (f x) (f y)) -> StronglySorted R l -> StronglySorted S (map f l).
Proof.
  intros A B R S f l Hm Hs; induction Hs as [|x l Hs IH Hf]; simpl; constructor; [exact IH|].
  apply Forall_forall. intros y Hy. apply in_map_iff in Hy as [z [<- Hz]].
  apply Hm. rewrite Forall_forall in Hf. apply Hf, Hz.
Qed.

(** The chunk rows of a document after a run that started with none. *)
Lemma processDocument_chunks : forall env i db,
  getEmbeddings db i = [] ->
  getEmbeddings (processDocument env i db) i =
  match run_page_texts env i db with None => [] | Some pts => emb_rows i 0 pts end.
Proof.
  intros env i db H0. unfold processDocument, run_page_texts.
  destruct (getDocument (updateDocument db i [SetProcessingStatus "processing"]) i)
    as [document|]; [|exact H0].
  destruct (download env); [|exact H0].
  destruct (extract env (fileType document)) as [[extractedText pageCount] pageTexts].
  unfold getEmbeddings. rewrite embeddings_update, index_pages_rows. simpl.
  rewrite filter_app. fold (getEmbeddings db i). rewrite H0. simpl.
  apply filter_all_true. intros e He. rewrite (emb_rows_owner _ _ _ _ He). apply Z.eqb_refl.
Qed.

Lemma processDocument_pages : forall env i db,
  pages_of db i = [] ->
  pages_of (processDocument env i db) i =
  match run_page_texts env i db with None => [] | Some pts => page_rows i 0 pts end.
Proof.
  intros env i db H0. unfold processDocument, run_page_texts.
  destruct (getDocument (updateDocument db i [SetProcessingStatus "processing"]) i)
    as [document|]; [|exact H0].
  destruct (download env); [|exact H0].
  destruct (extract env (fileType document)) as [[extractedText pageCount] pageTexts].
  rewrite pages_of_update. unfold pages_of. rewrite index_pages_rows. simpl.
  rewrite filter_app. fold (pages_of db i). rewrite H0. simpl.
  apply filter_all_true. intros p Hp. rewrite (page_rows_owner _ _ _ _ Hp). apply Z.eqb_refl.
Qed.

(** C2. The token count stored with a chunk is computed from the whole page
    text, not from the 2000-character chunk text: a 2004-character PDF page
    gives a 2000-character chunk with token count 501, where
    [ceil(2000 / 4)] is 500. *)
Theorem token_count_from_page_text :
  map (fun e => (String.length (chunkText e), tokenCount e))
      (getEmbeddings (processDocument (pdf_env (repeat_char 2004 "a") 1) 1 db_fresh) 1)
  = [(2000%nat, 501)] /\
  Z.of_nat (ceil_div 2000 4) = 500.
Proof. split; vm_compute; reflexivity. Qed.

(** C3 (as amended). After a run on a document with no chunk rows, every
    chunk text has at most 2000 characters and the chunk indices are
    strictly increasing (so never repeated): they are exactly the 0-based
    positions of the extracted page texts that are not whitespace only, so
    the position of a skipped page is missing from the sequence. *)
Theorem chunk_indices_by_position : forall env i db,
  getEmbeddings db i = [] ->
  (forall e, In e (getEmbeddings (processDocument env i db) i) ->
     (String.length (chunkText e) <= 2000)%nat) /\
  map chunkIndex (getEmbeddings (processDocument env i db) i) =
    match run_page_texts env i db with
    | None => []
    | Some pts => map Z.of_nat (nonblank_from 0 pts)
    end /\
  StronglySorted Z.lt (map chunkIndex (getEmbeddings (processDocument env i db) i)).
Proof.
  intros env i db H0. rewrite (processDocument_chunks env i db H0).
  destruct (run_page_texts env i db) as [pts|].
  - split; [intros e He; exact (emb_rows_text_bound _ _ _ _ He)|].
    rewrite emb_rows_index. split; [reflexivity|].
    apply StronglySorted_map_mono with (R := lt); [intros; lia|].
    apply nonblank_from_sorted.
  - split; [intros e []|]. split; [reflexivity|constructor].
Qed.

(** C3 does not hold as stated: a PDF of two pages whose text is
    [  ab] is sliced into a blank first page and [ab]; the only chunk
    gets index 1, so the indices do not start at 0. *)
Lemma chunk_index_gap :
  run_page_texts (pdf_env "  ab" 2) 1 db_fresh = Some ["  "; "ab"] /\
  map chunkIndex (getEmbeddings (processDocument (pdf_env "  ab" 2) 1 db_fresh) 1) = [1] /\
  [1] <> map Z.of_nat (seq 0 1).
Proof. split; [reflexivity|]. split; [vm_compute; reflexivity|discriminate]. Qed.

(** C4 (as amended). After a run on a document with no page rows, the page
    numbers of its rows are strictly increasing (so unique): they are the
    1-based positions of the extracted page texts that are not whitespace
    only, so a skipped page leaves a gap. *)
Theorem page_numbers_by_position : forall env i db,
  pages_of db i = [] ->
  map pageNumber (pages_of (processDocument env i db) i) =
    match run_page_texts env i db with
    | None => []
    | Some pts => map (fun k => Z.of_nat k + 1) (nonblank_from 0 pts)
    end /\
  StronglySorted Z.lt (map pageNumber (pages_of (processDocument env i db) i)).
Proof.
  intros env i db H0. rewrite (processDocument_pages env i db H0).
  destruct (run_page_texts env i db) as [pts|].
  - rewrite page_rows_number. split; [reflexivity|].
    apply StronglySorted_map_mono with (R := lt); [intros; lia|].
    apply nonblank_from_sorted.
  - split; [reflexivity|constructor].
Qed.

(** C4 does not hold as stated: with the parser succeeding on a two-page
    PDF whose text is [  ab], the only page row stored is page 2. *)
Lemma page_number_gap :
  pdf_getText (pdf_env "  ab" 2) = Some "  ab" /\
  pdf_getInfo (pdf_env "  ab" 2) = Some 2%N /\
  map pageNumber (pages_of (processDocument (pdf_env "  ab" 2) 1 db_fresh) 1) = [2].
Proof. split; [reflexivity|]. split; [reflexivity|]. vm_compute; reflexivity. Qed.

(** ** C5: the search tiers *)

(** C5 (as amended). For a non-empty query, POST /api/search answers with
    the document-title fallback exactly when [searchEmbeddings] finds
    nothing, that is when both the full-text match and the chunk-text
    substring match find nothing; otherwise it answers with the chunk rows
    of the first tier that found some. The title fallback has at most 10
    results. *)
Theorem search_title_fallback_gate : forall fts db q,
  truthy q = true ->
  (fts_tier fts db q 20 = [] -> ilike_tier db q 20 = [] ->
     search_route fts db q = results_response (title_fallback db q)) /\
  (fts_tier fts db q 20 <> [] ->
     search_route fts db q = results_response (map (chunk_result db) (fts_tier fts db q 20))) /\
  (fts_tier fts db q 20 = [] -> ilike_tier db q 20 <> [] ->
     search_route fts db q = results_response (map (chunk_result db) (ilike_tier db q 20))) /\
  (List.length (title_fallback db q) <= 10)%nat.
Proof.
  intros fts db q Hq. unfold search_route, searchEmbeddings. rewrite Hq. simpl negb. cbv iota.
  split; [|split; [|split]].
  - intros H1 H2. rewrite H1, H2. reflexivity.
  - intros H1. destruct (fts_tier fts db q 20); [congruence|reflexivity].
  - intros H1 H2. rewrite H1. destruct (ilike_tier db q 20); [congruence|reflexivity].
  - unfold title_fallback. rewrite length_map. apply firstn_le_length.
Qed.

Lemma search_title_fallback_gate_witness :
  search_route word_fts db_fresh "memo" = results_response (title_fallback db_fresh "memo").
Proof.
  apply (search_title_fallback_gate word_fts db_fresh "memo" eq_refl); reflexivity.
Defined.

(** C5 does not hold as stated: the full-text tier finds nothing for [xyz]
    in the chunk [abcxyzdef], yet the title fallback does not run, because
    [searchEmbeddings] falls back to a substring match on the chunk text
    first. *)
Lemma title_fallback_skipped :
  fts_tier word_fts db_substring "xyz" 20 = [] /\
  search_route word_fts db_substring "xyz" <> results_response (title_fallback db_substring "xyz").
Proof.
  split; [reflexivity|]. intro H. vm_compute in H. discriminate H.
Qed.

(** ** C9: the documents read by the corpus-wide fallback *)

Lemma insert_desc_perm : forall d l, Permutation (insert_desc d l) (d :: l).
Proof.
  intros d l; induction l as [|d' r IH]; simpl; [reflexivity|].
  destruct (uploadDate d' <=? uploadDate d); [reflexivity|].
  rewrite IH. apply perm_swap.
Qed.

Lemma sort_perm : forall l, Permutation (sort_by_upload_desc l) l.
Proof.
  induction l as [|d r IH]; simpl; [reflexivity|].
  rewrite insert_desc_perm, IH. reflexivity.
Qed.

Lemma insert_desc_hd : forall a d l,
  newer_or_same a d -> HdRel newer_or_same a l -> HdRel newer_or_same a (insert_desc d l).
Proof.
  intros a d [|d' r] Had Hl; simpl; [constructor; exact Had|].
  destruct (uploadDate d' <=? uploadDate d); constructor; [exact Had|].
  inversion Hl; assumption.
Qed.

Lemma insert_desc_sorted : forall d l,
  Sorted newer_or_same l -> Sorted newer_or_same (insert_desc d l).
Proof.
  intros d l Hs; induction Hs as [|d' r Hs IH Hhd]; simpl.
  - repeat constructor.
  - destruct (uploadDate d' <=? uploadDate d) eqn:E.
    + apply Z.leb_le in E. constructor; [constructor; assumption|constructor; exact E].
    + apply Z.leb_gt in E. constructor; [exact IH|].
      apply insert_desc_hd; [unfold newer_or_same; lia|exact Hhd].
Qed.

Lemma sort_sorted : forall l, Sorted newer_or_same (sort_by_upload_desc l).
Proof. induction l as [|d r IH]; simpl; [constructor|apply insert_desc_sorted, IH]. Qed.

Lemma sort_strongly_sorted : forall l, StronglySorted newer_or_same (sort_by_upload_desc l).
Proof.
  intros l. apply Sorted_StronglySorted; [|apply sort_sorted].
  intros a b c Hab Hbc. unfold newer_or_same in *. lia.
Qed.

Lemma StronglySorted_app_between : forall {A} (R : A -> A -> Prop) l1 l2 x y,
  StronglySorted R (l1 ++ l2) -> In x l1 -> In y l2 -> R x y.
Proof.
  intros A R l1; induction l1 as [|a r IH]; intros l2 x y Hs Hx Hy; [destruct Hx|].
  simpl in Hs. inversion Hs as [|a' l' Hs' Hf]; subst.
  destruct Hx as [<-|Hx].
  - rewrite Forall_forall in Hf. apply Hf. apply in_or_app. right. exact Hy.
  - eapply IH; eassumption.
Qed.

Lemma getDocuments_all : forall db,
  getDocuments db no_filters = sort_by_upload_desc (documents db).
Proof.
  intros db. unfold getDocuments. f_equal. apply filter_all_true. intros d _. reflexivity.
Qed.

Lemma fallback_content_owner : forall db docs c,
  In c (fallback_content db docs) -> exists d, In d docs /\ id d = c_documentId c.
Proof.
  intros db docs c; induction docs as [|doc rest IH]; intros Hin; simpl in Hin; [destruct Hin|].
  apply in_app_or in Hin as [Hin|Hin].
  - apply in_map_iff in Hin as [p [<- _]]. exists doc. split; [left|]; reflexivity.
  - apply in_app_or in Hin as [Hin|Hin].
    + exists doc. split; [left; reflexivity|].
      destruct (getDocumentPages db (id doc)); [|destruct Hin].
      destruct (fullText doc) as [t|]; [|destruct Hin].
      destruct (truthy t); [|destruct Hin]. destruct Hin as [<-|[]]. reflexivity.
    + destruct (IH Hin) as [d [Hd Hid]]. exists d. split; [right|]; assumption.
Qed.

Lemma answer_and_record_calls : forall g db q c items,
  snd (answer_and_record g db q c items) = [AskCorpusPrompt c q].
Proof.
  intros. unfold answer_and_record. destruct (parse_reply _ _); reflexivity.
Qed.

(** C9. When [searchEmbeddings] finds nothing for a corpus-wide question,
    the context is built from [fallback_docs]: the first five documents of
    the listing sorted by upload date, newest first. So at most five
    documents are read, every context entry comes from one of them, and no
    document left out was uploaded later than any document read. *)
Theorem fallback_reads_five_newest : forall fts g db q,
  truthy q = true ->
  searchEmbeddings fts db q 10 = [] ->
  getDocuments db no_filters <> [] ->
  fallback_content db (fallback_docs db) <> [] ->
  snd (qa_ask fts g db q) =
    [AskCorpusPrompt (js_slice (render_context (fallback_content db (fallback_docs db))) 0 MAX_CONTEXT) q] /\
  (List.length (fallback_docs db) <= 5)%nat /\
  (forall c, In c (fallback_content db (fallback_docs db)) ->
     exists d, In d (fallback_docs db) /\ id d = c_documentId c) /\
  Permutation (getDocuments db no_filters) (documents db) /\
  (forall d d', In d (fallback_docs db) -> In d' (documents db) -> ~ In d' (fallback_docs db) ->
     uploadDate d' <= uploadDate d).
Proof.
  intros fts g db q Hq Hs Hne Hc.
  split.
  { unfold qa_ask. rewrite Hq, Hs. simpl negb. cbv iota.
    destruct (getDocuments db no_filters); [congruence|].
    destruct (fallback_content db (fallback_docs db)); [congruence|].
    apply answer_and_record_calls. }
  split; [apply firstn_le_length|].
  split; [intros c; apply fallback_content_owner|].
  rewrite getDocuments_all. split; [apply sort_perm|].
  intros d d' Hd Hd' Hnot. unfold fallback_docs in *. rewrite getDocuments_all in *.
  pose proof (sort_strongly_sorted (documents db)) as Hss.
  rewrite <- (firstn_skipn 5 (sort_by_upload_desc (documents db))) in Hss.
  assert (Hin : In d' (sort_by_upload_desc (documents db))).
  { eapply Permutation_in; [symmetry; apply sort_perm|exact Hd']. }
  rewrite <- (firstn_skipn 5 (sort_by_upload_desc (documents db))) in Hin.
  apply in_app_or in Hin as [Hin|Hin]; [contradiction|].
  exact (StronglySorted_app_between _ _ _ _ _ Hss Hd Hin).
Qed.

(** ** Witnesses *)

Lemma ask_reply_by_design_witness :
  reply_by_design doc_fallback "Profit rose."
    (fst (doc_ask (reply_with "Profit rose.") db_with_page 3 "Did profit rise?")).
Proof.
  exact (proj1 (ask_reply_by_design (reply_with "Profit rose.") "Profit rose.")
           db_with_page 3 "Did profit rise?" (RJson 200 (doc_fallback "Profit rose."))
           (AskDocPrompt "FY24 Annual" ("[Page 1]" ++ nl ++ "Net profit rose 12%.") "Did profit rise?")
           eq_refl eq_refl).
Defined.

Lemma chunk_indices_by_position_witness :
  getEmbeddings db_fresh 1 = [] /\
  map chunkIndex (getEmbeddings (processDocument (pdf_env "  ab" 2) 1 db_fresh) 1) =
  map Z.of_nat (nonblank_from 0 ["  "; "ab"]).
Proof.
  split; [reflexivity|].
  destruct (chunk_indices_by_position (pdf_env "  ab" 2) 1 db_fresh eq_refl) as [_ [H _]].
  rewrite H. reflexivity.
Defined.

Lemma page_numbers_by_position_witness :
  pages_of db_fresh 1 = [] /\
  map pageNumber (pages_of (processDocument (pdf_env "  ab" 2) 1 db_fresh) 1) =
  map (fun k => Z.of_nat k + 1) (nonblank_from 0 ["  "; "ab"]).
Proof.
  split; [reflexivity|].
  destruct (page_numbers_by_position (pdf_env "  ab" 2) 1 db_fresh eq_refl) as [H _].
  rewrite H. reflexivity.
Defined.

Lemma pdf_parse_failure_completes_witness :
  map (fun p => (pageNumber p, pageText p))
      (getDocumentPages (processDocument broken_pdf_env 1 db_fresh) 1)
    = [(1, Some pdf_failure_text)] /\
  option_map processingStatus (getDocument (processDocument broken_pdf_env 1 db_fresh) 1)
    = Some "completed".
Proof.
  destruct (pdf_parse_failure_completes broken_pdf_env db_fresh 1 doc_q3
              eq_refl eq_refl eq_refl (or_introl eq_refl) eq_refl) as [_ H].
  exact H.
Defined.

Lemma corpus_ask_no_documents_witness :
  qa_ask word_fts no_reply db_empty "Any filings?" =
  (insufficient "No documents have been uploaded yet. Please upload some documents first.",
   db_empty, []).
Proof.
  apply corpus_ask_no_documents; [reflexivity|reflexivity|].
  intros e [].
Defined.

Lemma fallback_reads_five_newest_witness :
  snd (qa_ask word_fts no_reply db_fresh "growth?") =
  [AskCorpusPrompt (js_slice (render_context (fallback_content db_fresh (fallback_docs db_fresh)))
                     0 MAX_CONTEXT) "growth?"].
Proof.
  refine (proj1 (fallback_reads_five_newest word_fts no_reply db_fresh "growth?"
                   eq_refl eq_refl _ _)).
  - intro H. vm_compute in H. discriminate H.
  - intro H. vm_compute in H. discriminate H.
Defined.

Lemma reprocess_resets_only_derived_witness :
  option_map other_fields (getDocument (snd (reprocess_route db_fresh 2)) 2)
  = Some (other_fields doc_old).
Proof.
  destruct (reprocess_resets_only_derived db_fresh 2 doc_old eq_refl)
    as [d' [H1 [_ [_ [_ [_ [_ [_ [H8 _]]]]]]]]].
  rewrite H1. simpl. rewrite H8. reflexivity.
Defined.

(* ================================================================== *)
(** * Further properties of the code *)

Lemma filter_all_false : forall {A} (f : A -> bool) l,
  (forall x, In x l -> f x = false) -> filter f l = [].
Proof.
  intros A f l H; induction l as [|x r IH]; simpl; [reflexivity|].
  rewrite (H x (or_introl eq_refl)). apply IH. intros y Hy; apply H; right; exact Hy.
Qed.

Lemma update_absent : forall db i us, getDocument db i = None -> updateDocument db i us = db.
Proof.
  intros [ds ps es qs] i us H; unfold getDocument in H; unfold updateDocument; simpl in *.
  f_equal. induction ds as [|d r IH]; simpl in *; [reflexivity|].
  destruct (id d =? i); [discriminate H|]. rewrite IH; [reflexivity|exact H].
Qed.

(** X1. Classification never fails and always yields one of the eight
    allowed labels; when the generation call throws or returns no text
    block the label is [other]. *)
Theorem classify_in_validTypes : forall g docTitle text,
  In (classify g docTitle text) validTypes /\
  (forall c, g (ClassifyPrompt docTitle (js_slice text 0 2000)) = c ->
     (c = None \/ c = Some OtherBlock) -> classify g docTitle text = "other").
Proof.
  intros g docTitle text. unfold classify. split.
  - destruct (g _) as [[t|]|]; try (simpl; tauto).
    destruct (existsb _ validTypes) eqn:E; [|simpl; tauto].
    apply existsb_exists in E as [x [Hx Hxe]]. apply String.eqb_eq in Hxe. subst. exact Hx.
  - intros c Hc [-> | ->]; rewrite Hc; reflexivity.
Qed.

(** X2. Running the pipeline for an id with no document changes nothing. *)
Theorem processDocument_absent : forall env i db,
  getDocument db i = None -> processDocument env i db = db.
Proof.
  intros env i db H. unfold processDocument.
  rewrite (update_absent db i _ H), H. reflexivity.
Qed.

Lemma processDocument_absent_witness : processDocument broken_pdf_env 7 db_fresh = db_fresh.
Proof. apply processDocument_absent. reflexivity. Defined.

(** X3. A run on an existing document always ends in [completed] or
    [failed]: [failed] with the thrown message exactly when the object-store
    read throws, and otherwise [completed] with the error message left as it
    was. *)
Theorem processDocument_final_status : forall env i db d,
  getDocument db i = Some d ->
  option_map (fun d => (processingStatus d, errorMessage d)) (getDocument (processDocument env i db) i)
  = Some (match download env with
          | Ok => ("completed", errorMessage d)
          | Throw msg => ("failed", Some msg)
          end).
Proof.
  intros env i db d Hd. unfold processDocument.
  rewrite getDocument_update, Hd. simpl option_map. cbv iota beta.
  destruct (download env) as [|msg].
  - destruct (extract env _) as [[extractedText pageCount] pageTexts].
    rewrite getDocument_update, getDocument_index_pages, getDocument_update, Hd.
    destruct d; reflexivity.
  - rewrite getDocument_update, getDocument_update, Hd. destruct d; reflexivity.
Qed.

Lemma processDocument_final_status_witness :
  option_map (fun d => (processingStatus d, errorMessage d))
    (getDocument (processDocument (mkEnv (Throw "No such object") None None Ok no_reply 5) 1 db_fresh) 1)
  = Some ("failed", Some "No such object").
Proof. exact (processDocument_final_status (mkEnv (Throw "No such object") None None Ok no_reply 5) 1 db_fresh doc_q3 eq_refl). Defined.

Lemma extract_pageCount_pos : forall env ft, 1 <= snd (fst (extract env ft)).
Proof.
  intros env ft. unfold extract.
  destruct (String.eqb ft "application/pdf").
  - destruct (pdf_getText env), (pdf_getInfo env) as [total|]; simpl; try lia.
    destruct (pdf_destroy env); simpl; destruct (total =? 0)%N eqn:E; simpl; try lia;
      apply N.eqb_neq in E; lia.
  - destruct (includes ft "spreadsheet" || includes ft "excel"); simpl; [lia|].
    destruct (includes ft "image"); simpl; lia.
Qed.

(** X4. A completed run stores the extracted text as [fullText] and a page
    count of at least 1 (also for a PDF whose parser reports 0 pages). *)
Theorem processDocument_completed_fields : forall env i db d,
  getDocument db i = Some d -> download env = Ok ->
  exists d', getDocument (processDocument env i db) i = Some d' /\
    fullText d' = Some (fst (fst (extract env (fileType d)))) /\
    exists pc, pageCount d' = Some pc /\ 1 <= pc.
Proof.
  intros env i db d Hd Hdl. unfold processDocument.
  rewrite getDocument_update, Hd. simpl option_map. cbv iota beta. rewrite Hdl.
  assert (Hft : fileType (apply_set d (SetProcessingStatus "processing")) = fileType d)
    by (destruct d; reflexivity).
  cbn [fold_left]. rewrite Hft.
  pose proof (extract_pageCount_pos env (fileType d)) as Hpc.
  destruct (extract env (fileType d)) as [[extractedText pageCount] pageTexts].
  rewrite getDocument_update, getDocument_index_pages, getDocument_update, Hd.
  eexists; split; [reflexivity|]. split; [destruct d; reflexivity|].
  exists pageCount. split; [destruct d; reflexivity|exact Hpc].
Qed.

Lemma processDocument_completed_fields_witness :
  exists d', getDocument (processDocument (pdf_env "Revenue" 0) 1 db_fresh) 1 = Some d' /\
    fullText d' = Some "Revenue" /\ exists pc, pageCount d' = Some pc /\ 1 <= pc.
Proof. exact (processDocument_completed_fields (pdf_env "Revenue" 0) 1 db_fresh doc_q3 eq_refl eq_refl). Defined.

(** X5. A run touches no other document: for every other id the document
    row, its page rows and its chunk rows are unchanged, and the question
    history is unchanged. *)
Theorem processDocument_frame : forall env i db j, j <> i ->
  getDocument (processDocument env i db) j = getDocument db j /\
  pages_of (processDocument env i db) j = pages_of db j /\
  getEmbeddings (processDocument env i db) j = getEmbeddings db j /\
  qaHistory (processDocument env i db) = qaHistory db.
Proof.
  intros env i db j Hne. unfold processDocument.
  destruct (getDocument (updateDocument db i [SetProcessingStatus "processing"]) i) as [document|].
  2:{ rewrite getDocument_update_other by exact Hne. repeat split; reflexivity. }
  destruct (download env) as [|msg].
  2:{ rewrite !getDocument_update_other by exact Hne. repeat split; reflexivity. }
  destruct (extract env (fileType document)) as [[extractedText pageCount] pageTexts].
  rewrite getDocument_update_other, getDocument_index_pages, getDocument_update_other by exact Hne.
  split; [reflexivity|].
  rewrite pages_of_update. unfold getEmbeddings, pages_of. rewrite embeddings_update, index_pages_rows.
  simpl. rewrite !filter_app.
  rewrite (filter_all_false (fun p => page_documentId p =? j) (page_rows i 0 pageTexts)).
  2:{ intros p Hp. rewrite (page_rows_owner _ _ _ _ Hp). apply Z.eqb_neq. congruence. }
  rewrite (filter_all_false (fun e => emb_documentId e =? j) (emb_rows i 0 pageTexts)).
  2:{ intros e He. rewrite (emb_rows_owner _ _ _ _ He). apply Z.eqb_neq. congruence. }
  rewrite !app_nil_r. repeat split; reflexivity.
Qed.

Lemma processDocument_frame_witness :
  getDocument (processDocument (pdf_env "Revenue" 1) 1 db_fresh) 2 = Some doc_old.
Proof.
  destruct (processDocument_frame (pdf_env "Revenue" 1) 1 db_fresh 2 ltac:(lia)) as [H _].
  rewrite H. reflexivity.
Defined.

(** ** Page slicing *)

Lemma str_append_nil_r : forall s, s ++ "" = s.
Proof. induction s as [|c s IH]; simpl; [reflexivity|rewrite IH; reflexivity]. Qed.

Lemma str_append_assoc : forall a b c, (a ++ b) ++ c = a ++ (b ++ c).
Proof. induction a as [|x a IH]; intros b c; simpl; [reflexivity|rewrite IH; reflexivity]. Qed.

Lemma substring_n0 : forall s n, substring n 0 s = "".
Proof. induction s as [|c s IH]; intros [|n]; simpl; auto. Qed.

Lemma substring_add : forall s n m1 m2,
  substring n (m1 + m2) s = substring n m1 s ++ substring (n + m1) m2 s.
Proof.
  induction s as [|c s IH]; intros [|n] [|m1] [|m2]; simpl;
    rewrite ?Nat.add_0_r, ?substring_n0, ?str_append_nil_r; try reflexivity;
    rewrite ?IH; try reflexivity.
  replace (S (m1 + S m2)) with (S m1 + S m2)%nat by lia. apply IH.
Qed.

Lemma substring_beyond : forall s n m, (String.length s <= n)%nat -> substring n m s = "".
Proof.
  induction s as [|c s IH]; intros [|n] [|m] H; simpl in *; try reflexivity; try lia.
  all: apply IH; lia.
Qed.

Lemma substring_whole : forall s, substring 0 (String.length s) s = s.
Proof. induction s as [|c s IH]; simpl; [reflexivity|rewrite IH; reflexivity]. Qed.

Lemma concat_str_app : forall l1 l2, concat_str (l1 ++ l2) = concat_str l1 ++ concat_str l2.
Proof.
  induction l1 as [|x r IH]; intros l2; simpl; [reflexivity|].
  unfold concat_str in *. rewrite IH. symmetry. apply str_append_assoc.
Qed.

Lemma slice_as_clamped : forall text c i,
  js_slice text (i * c) (Nat.min ((i + 1) * c) (String.length text)) =
  substring (Nat.min (i * c) (String.length text))
    (Nat.min ((i + 1) * c) (String.length text) - Nat.min (i * c) (String.length text)) text.
Proof.
  intros text c i. unfold js_slice.
  destruct (Nat.le_gt_cases (i * c) (String.length text)) as [Hle|Hgt].
  - rewrite (Nat.min_l (i * c)) by exact Hle. reflexivity.
  - rewrite substring_beyond by lia. rewrite substring_beyond by lia. reflexivity.
Qed.

Lemma split_pages_prefix : forall text c n,
  concat_str (map (fun i => js_slice text (i * c) (Nat.min ((i + 1) * c) (String.length text)))
                  (seq 0 n))
  = substring 0 (Nat.min (n * c) (String.length text)) text.
Proof.
  intros text c n. induction n as [|n IH].
  - simpl. symmetry. apply substring_n0.
  - rewrite seq_S, map_app, concat_str_app, IH. cbn [map].
    unfold concat_str. cbn [fold_right].
    rewrite slice_as_clamped, str_append_nil_r.
    rewrite <- (substring_add text 0).
    f_equal. replace (n + 1)%nat with (S n) by lia. nia.
Qed.

(** X6. The PDF page slicing loses and duplicates nothing: for a page count
    of at least 1 it yields exactly that many slices, and their
    concatenation is the extracted text. *)
Theorem split_pages_concat : forall text pc, (1 <= pc)%nat ->
  concat_str (split_pages text pc) = text /\ List.length (split_pages text pc) = pc.
Proof.
  intros text pc Hpc. unfold split_pages. split; [|rewrite length_map, length_seq; reflexivity].
  rewrite split_pages_prefix.
  assert (Hge : (String.length text <= pc * ceil_div (String.length text) pc)%nat).
  { unfold ceil_div.
    pose proof (Nat.div_mod (String.length text + pc - 1) pc ltac:(lia)) as Hd.
    pose proof (Nat.mod_upper_bound (String.length text + pc - 1) pc ltac:(lia)) as Hm.
    lia. }
  rewrite Nat.min_r by lia. apply substring_whole.
Qed.

Lemma split_pages_concat_witness :
  concat_str (split_pages "Revenue grew" 5) = "Revenue grew" /\
  List.length (split_pages "Revenue grew" 5) = 5%nat.
Proof. apply split_pages_concat. lia. Defined.

(** ** Page rows and chunk rows of a run *)

Lemma emb_rows_pages : forall documentId n pts,
  map (fun e => (emb_pageNumber e, chunkText e, tokenCount e)) (emb_rows documentId n pts) =
  map (fun p => (pageNumber p, js_slice (page_text_str p) 0 MAX_CHUNK,
                 Z.of_nat (ceil_div (String.length (page_text_str p)) 4)))
      (page_rows documentId n pts).
Proof.
  intros documentId n pts; revert n.
  induction pts as [|t rest IH]; intros n; simpl; [reflexivity|].
  rewrite !map_app, IH. destruct (truthy (js_trim t)); reflexivity.
Qed.

(** X7. After a run on a document with no page rows and no chunk rows, its
    chunk rows and its page rows correspond one to one, in order: the k-th
    chunk carries the page number of the k-th page, its text is the first
    2000 characters of that page's text, and its token count is
    [ceil(length / 4)] of that page's whole text. *)
Theorem processDocument_chunks_match_pages : forall env i db,
  pages_of db i = [] -> getEmbeddings db i = [] ->
  map (fun e => (emb_pageNumber e, chunkText e, tokenCount e))
      (getEmbeddings (processDocument env i db) i) =
  map (fun p => (pageNumber p, js_slice (page_text_str p) 0 MAX_CHUNK,
                 Z.of_nat (ceil_div (String.length (page_text_str p)) 4)))
      (pages_of (processDocument env i db) i).
Proof.
  intros env i db Hp He.
  rewrite (processDocument_chunks env i db He), (processDocument_pages env i db Hp).
  destruct (run_page_texts env i db) as [pts|]; [apply emb_rows_pages|reflexivity].
Qed.

Lemma processDocument_chunks_match_pages_witness :
  (pages_of db_fresh 1 = [] /\ getEmbeddings db_fresh 1 = []) /\
  map (fun e => (emb_pageNumber e, chunkText e, tokenCount e))
      (getEmbeddings (processDocument (pdf_env "  ab" 2) 1 db_fresh) 1) =
  map (fun p => (pageNumber p, js_slice (page_text_str p) 0 MAX_CHUNK,
                 Z.of_nat (ceil_div (String.length (page_text_str p)) 4)))
      (pages_of (processDocument (pdf_env "  ab" 2) 1 db_fresh) 1).
Proof.
  split; [split; reflexivity|].
  apply processDocument_chunks_match_pages; reflexivity.
Defined.

(** ** Reprocessing and deletion keep the other documents *)

Lemma filter_filter_sub : forall {A} (f g : A -> bool) l,
  (forall x, f x = true -> g x = true) -> filter f (filter g l) = filter f l.
Proof.
  intros A f g l H; induction l as [|x r IH]; simpl; [reflexivity|].
  destruct (g x) eqn:Eg; simpl.
  - destruct (f x); rewrite IH; reflexivity.
  - destruct (f x) eqn:Ef; [rewrite (H x Ef) in Eg; discriminate|exact IH].
Qed.

Lemma find_filter_sub : forall {A} (f g : A -> bool) l,
  (forall x, f x = true -> g x = true) -> find f (filter g l) = find f l.
Proof.
  intros A f g l H; induction l as [|x r IH]; simpl; [reflexivity|].
  destruct (g x) eqn:Eg; simpl.
  - destruct (f x); [reflexivity|exact IH].
  - destruct (f x) eqn:Ef; [rewrite (H x Ef) in Eg; discriminate|exact IH].
Qed.

Lemma neq_keeps : forall i j, j <> i -> forall k, (k =? j) = true -> negb (k =? i) = true.
Proof.
  intros i j Hne k Hk. apply Z.eqb_eq in Hk; subst k.
  apply negb_true_iff, Z.eqb_neq; exact Hne.
Qed.

Lemma filter_eq_after_delete : forall {A} (key : A -> Z) i l,
  filter (fun x => key x =? i) (filter (fun x => negb (key x =? i)) l) = [].
Proof.
  intros A key i l. apply filter_all_false. intros x Hx.
  apply filter_In in Hx as [_ Hx]. apply negb_true_iff in Hx. exact Hx.
Qed.

Lemma reprocess_route_cleared : forall db i d, getDocument db i = Some d ->
  pages_of (snd (reprocess_route db i)) i = [] /\
  getEmbeddings (snd (reprocess_route db i)) i = [].
Proof.
  intros db i d H. unfold reprocess_route. rewrite H. simpl snd.
  split; apply filter_eq_after_delete.
Qed.

(** X8. POST /api/documents/:id/reprocess: for a missing id it answers 404
    and changes nothing; for an existing one it removes all page rows and
    chunk rows of that document (so the run it starts begins from none), and
    keeps every other document with its page rows and chunk rows, the set of
    document ids and the Q&A history. *)
Theorem reprocess_route_rows : forall db i,
  (getDocument db i = None ->
     reprocess_route db i = (err 404 "Document not found", db)) /\
  (forall d, getDocument db i = Some d ->
     pages_of (snd (reprocess_route db i)) i = [] /\
     getEmbeddings (snd (reprocess_route db i)) i = [] /\
     map id (documents (snd (reprocess_route db i))) = map id (documents db) /\
     qaHistory (snd (reprocess_route db i)) = qaHistory db /\
     (forall j, j <> i ->
        getDocument (snd (reprocess_route db i)) j = getDocument db j /\
        pages_of (snd (reprocess_route db i)) j = pages_of db j /\
        getEmbeddings (snd (reprocess_route db i)) j = getEmbeddings db j)).
Proof.
  intros db i. split.
  - intros H. unfold reprocess_route. rewrite H. reflexivity.
  - intros d H. destruct (reprocess_route_cleared db i d H) as [Hp He].
    split; [exact Hp|]. split; [exact He|].
    unfold reprocess_route. rewrite H. simpl snd.
    split.
    { destruct db as [ds ps es qs]; simpl. rewrite map_map.
      apply map_ext. intros x. destruct (id x =? i); [destruct x; reflexivity|reflexivity]. }
    split; [reflexivity|].
    intros j Hne. split; [|split].
    + rewrite getDocument_update_other by exact Hne. reflexivity.
    + unfold pages_of; simpl. apply filter_filter_sub; intros x; apply (neq_keeps i j Hne).
    + unfold getEmbeddings; simpl. apply filter_filter_sub; intros x; apply (neq_keeps i j Hne).
Qed.

(** X9. Reprocessing an existing document and then running the background
    processing on the result always leaves its chunk indices strictly
    increasing and its page numbers strictly increasing (so neither
    repeats), whatever the document had stored before. *)
Theorem reprocess_then_process_sorted : forall env db i d,
  getDocument db i = Some d ->
  StronglySorted Z.lt
    (map chunkIndex (getEmbeddings (processDocument env i (snd (reprocess_route db i))) i)) /\
  StronglySorted Z.lt
    (map pageNumber (pages_of (processDocument env i (snd (reprocess_route db i))) i)).
Proof.
  intros env db i d H.
  destruct (reprocess_route_cleared db i d H) as [Hp He].
  rewrite (processDocument_chunks _ _ _ He), (processDocument_pages _ _ _ Hp).
  destruct (run_page_texts env i (snd (reprocess_route db i))) as [pts|];
    [|split; constructor].
  rewrite emb_rows_index, page_rows_number. split;
    (apply StronglySorted_map_mono with (R := lt); [intros; lia|apply nonblank_from_sorted]).
Qed.

Lemma reprocess_then_process_sorted_witness :
  getDocument db_fresh 1 = Some doc_q3 /\
  StronglySorted Z.lt
    (map chunkIndex (getEmbeddings
       (processDocument (pdf_env "a  b c" 3) 1 (snd (reprocess_route db_fresh 1))) 1)) /\
  StronglySorted Z.lt
    (map pageNumber (pages_of
       (processDocument (pdf_env "a  b c" 3) 1 (snd (reprocess_route db_fresh 1))) 1)).
Proof.
  split; [reflexivity|].
  apply (reprocess_then_process_sorted (pdf_env "a  b c" 3) db_fresh 1 doc_q3). reflexivity.
Defined.

(** X10. DELETE /api/documents/:id touches nothing but the deleted
    document: every other document, with its page rows and chunk rows, is
    still found as before, and the Q&A history is kept. *)
Theorem delete_route_frame : forall db i j, j <> i ->
  getDocument (snd (delete_route db i)) j = getDocument db j /\
  pages_of (snd (delete_route db i)) j = pages_of db j /\
  getEmbeddings (snd (delete_route db i)) j = getEmbeddings db j /\
  qaHistory (snd (delete_route db i)) = qaHistory db.
Proof.
  intros db i j Hne. split; [|split; [|split]]; [| | |reflexivity].
  - unfold getDocument; simpl. apply find_filter_sub; intros x; apply (neq_keeps i j Hne).
  - unfold pages_of; simpl. apply filter_filter_sub; intros x; apply (neq_keeps i j Hne).
  - unfold getEmbeddings; simpl. apply filter_filter_sub; intros x; apply (neq_keeps i j Hne).
Qed.

Lemma delete_route_frame_witness :
  (2 <> 1) /\ getDocument (snd (delete_route db_fresh 1)) 2 = Some doc_old.
Proof.
  split; [discriminate|].
  destruct (delete_route_frame db_fresh 1 2 ltac:(discriminate)) as [H _].
  rewrite H. reflexivity.
Defined.

(** ** Listing, page lookup and search *)

Lemma in_firstn_in : forall {A} n (l : list A) x, In x (firstn n l) -> In x l.
Proof.
  intros A n; induction n as [|n IH]; intros [|y l] x H; simpl in *; try contradiction.
  destruct H as [H|H]; [left; exact H|right; apply (IH l x H)].
Qed.

Lemma firstn_nil_cases : forall {A} n (l : list A), firstn n l = [] -> n = 0%nat \/ l = [].
Proof. intros A [|n] [|x l] H; simpl in H; auto; discriminate. Qed.







Lemma searchEmbeddings_len : forall fts db q lim,
  (List.length (searchEmbeddings fts db q lim) <= lim)%nat.
Proof.
  intros. unfold searchEmbeddings.
  destruct (fts_tier fts db q lim) eqn:E; [apply firstn_le_length|].
  rewrite <- E. apply firstn_le_length.
Qed.

(** X14. [searchEmbeddings(query, limit)] returns at most [limit] stored
    chunk rows, each matching the query by full-text search or by
    case-insensitive substring; when some stored chunk matches by full-text
    search, every row returned is a full-text match. *)
Theorem searchEmbeddings_tiers : forall fts db q lim,
  (List.length (searchEmbeddings fts db q lim) <= lim)%nat /\
  (forall e, In e (searchEmbeddings fts db q lim) ->
     In e (embeddings db) /\
     (fts (chunkText e) q = true \/ ilike (chunkText e) ("%" ++ q ++ "%") = true)) /\
  ((exists e, In e (embeddings db) /\ fts (chunkText e) q = true) ->
   forall e, In e (searchEmbeddings fts db q lim) -> fts (chunkText e) q = true).
Proof.
  intros fts db q lim. unfold searchEmbeddings.
  destruct (fts_tier fts db q lim) as [|x r] eqn:E.
  - unfold ilike_tier. split; [apply firstn_le_length|]. split.
    + intros e He. apply in_firstn_in, filter_In in He as [Hin Hm]. auto.
    + intros [e0 [Hin0 Hf0]] e He.
      unfold fts_tier in E. apply firstn_nil_cases in E as [E|E].
      * subst lim. destruct He.
      * assert (Hx : In e0 (filter (fun e => fts (chunkText e) q) (embeddings db)))
          by (apply filter_In; auto).
        rewrite E in Hx. destruct Hx.
  - rewrite <- E. unfold fts_tier. split; [apply firstn_le_length|].
    split; intros; [|apply in_firstn_in, filter_In in H0 as [_ H0]; exact H0].
    apply in_firstn_in, filter_In in H as [Hin Hm]. auto.
Qed.

(** X15. POST /api/search answers 400 to an empty or missing query and
    otherwise 200 with a result list of at most 20 rows, whose total is the
    list's length. *)
Theorem search_route_bounded : forall fts db q,
  (truthy q = false -> search_route fts db q = err 400 "Query is required") /\
  (truthy q = true -> exists rs,
     search_route fts db q = results_response rs /\ (List.length rs <= 20)%nat).
Proof.
  intros fts db q. unfold search_route. split; intros Hq; rewrite Hq; [reflexivity|].
  simpl negb; cbv iota.
  pose proof (searchEmbeddings_len fts db q 20) as Hl.
  destruct (searchEmbeddings fts db q 20) as [|e r].
  - eexists; split; [reflexivity|]. unfold title_fallback. rewrite length_map.
    pose proof (firstn_le_length 10 (getDocuments db (mkFilters None None (Some q)))). lia.
  - eexists; split; [reflexivity|]. rewrite length_map. exact Hl.
Qed.

Lemma search_route_bounded_witness :
  exists rs, search_route word_fts db_substring "xyz" = results_response rs /\
             (List.length rs <= 20)%nat.
Proof. apply (proj2 (search_route_bounded word_fts db_substring "xyz")). reflexivity. Defined.

(** ** Question answering *)

(** X16. POST /api/documents/:id/ask calls the generation service at most
    once, and never for an empty question (400), a missing document (404)
    or a document with no page text; the one prompt it sends carries the
    document's title, the question and a context of at most 50000
    characters. *)
Theorem doc_ask_calls : forall g db i q,
  (truthy q = false -> doc_ask g db i q = (err 400 "Question is required", [])) /\
  (truthy q = true -> getDocument db i = None ->
     doc_ask g db i q = (err 404 "Document not found", [])) /\
  (forall d, getDocument db i = Some d -> filter has_text (getDocumentPages db i) = [] ->
     snd (doc_ask g db i q) = []) /\
  (forall p, In p (snd (doc_ask g db i q)) ->
     snd (doc_ask g db i q) = [p] /\
     exists d context, getDocument db i = Some d /\ p = AskDocPrompt (title d) context q /\
       (String.length context <= MAX_CONTEXT)%nat).
Proof.
  intros g db i q. unfold doc_ask.
  split; [intros Hq; rewrite Hq; reflexivity|].
  split; [intros Hq Hd; rewrite Hq, Hd; reflexivity|].
  split.
  - intros d Hd Hp. destruct (negb (truthy q)); [reflexivity|]. rewrite Hd, Hp. reflexivity.
  - intros p Hin. destruct (negb (truthy q)); [destruct Hin|].
    destruct (getDocument db i) as [d|] eqn:Hd; [|destruct Hin].
    destruct (filter has_text (getDocumentPages db i)) as [|p0 r]; [destruct Hin|].
    set (ctx := js_slice _ 0 MAX_CONTEXT) in *.
    assert (Hc : (String.length ctx <= MAX_CONTEXT)%nat) by apply substring_length_le.
    destruct (parse_reply doc_fallback (g (AskDocPrompt (title d) ctx q)));
      (destruct Hin as [<-|[]]; split; [reflexivity|exists d, ctx; auto]).
Qed.

Lemma doc_ask_calls_witness :
  snd (doc_ask no_reply db_with_page 3 "What rose?") =
    [AskDocPrompt "FY24 Annual" ("[Page 1]" ++ nl ++ "Net profit rose 12%.") "What rose?"] /\
  exists d context, getDocument db_with_page 3 = Some d /\
    AskDocPrompt "FY24 Annual" ("[Page 1]" ++ nl ++ "Net profit rose 12%.") "What rose?" =
      AskDocPrompt (title d) context "What rose?" /\
    (String.length context <= MAX_CONTEXT)%nat.
Proof.
  apply (proj2 (proj2 (proj2 (doc_ask_calls no_reply db_with_page 3 "What rose?")))).
  vm_compute. left. reflexivity.
Defined.

Lemma dedup_spec : forall xs seen,
  NoDup (dedup seen xs) /\
  (forall x, In x (dedup seen xs) <-> In x xs /\ ~ In x seen).
Proof.
  induction xs as [|x r IH]; intros seen; simpl.
  - split; [constructor|]. intros y; split; [intros []|intros [[] _]].
  - destruct (existsb (Z.eqb x) seen) eqn:E.
    + apply existsb_exists in E as [s [Hs Hxs]]. apply Z.eqb_eq in Hxs; subst s.
      destruct (IH seen) as [Hn Hi]. split; [exact Hn|].
      intros y. rewrite Hi. split; [intros [H1 H2]; auto|].
      intros [[<-|H1] H2]; [contradiction|auto].
    + assert (Hx : ~ In x seen).
      { intros Hin. assert (existsb (Z.eqb x) seen = true) as Hc
          by (apply existsb_exists; exists x; split; [exact Hin|apply Z.eqb_refl]).
        congruence. }
      destruct (IH (x :: seen)) as [Hn Hi]. split.
      * constructor; [|exact Hn]. intros Hin. apply Hi in Hin as [_ Hin]. apply Hin; left; reflexivity.
      * intros y. simpl. rewrite Hi. simpl. split.
        -- intros [<-|[H1 H2]]; [auto|]. split; [auto|]. intros Hs; apply H2; auto.
        -- intros [[<-|H1] H2]; [auto|]. destruct (Z.eq_dec x y) as [->|Hne]; [auto|].
           right. split; [exact H1|]. intros [E'|E']; [congruence|contradiction].
Qed.


Lemma answer_and_record_effect : forall g db q c items,
  documents (snd (fst (answer_and_record g db q c items))) = documents db /\
  documentPages (snd (fst (answer_and_record g db q c items))) = documentPages db /\
  embeddings (snd (fst (answer_and_record g db q c items))) = embeddings db /\
  (qaHistory (snd (fst (answer_and_record g db q c items))) = qaHistory db \/
   exists h, qaHistory (snd (fst (answer_and_record g db q c items))) = (qaHistory db ++ [h])%list /\
             qa_question h = q /\ qa_documentIds h = dedup [] (map c_documentId items)) /\
  snd (answer_and_record g db q c items) = [AskCorpusPrompt c q].
Proof.
  intros. unfold answer_and_record.
  destruct (parse_reply corpus_fallback (g (AskCorpusPrompt c q))); simpl.
  - repeat split; try reflexivity. right. eexists; split; [reflexivity|split; reflexivity].
  - repeat split; try reflexivity. left; reflexivity.
Qed.

(** X18. POST /api/qa/ask never changes the documents, page rows or chunk
    rows; it adds at most one Q&A history row, holding the question and
    distinct document ids; and it calls the generation service at most once,
    with the question. *)
Theorem qa_ask_effects : forall fts g db q,
  documents (snd (fst (qa_ask fts g db q))) = documents db /\
  documentPages (snd (fst (qa_ask fts g db q))) = documentPages db /\
  embeddings (snd (fst (qa_ask fts g db q))) = embeddings db /\
  (qaHistory (snd (fst (qa_ask fts g db q))) = qaHistory db \/
   exists h, qaHistory (snd (fst (qa_ask fts g db q))) = (qaHistory db ++ [h])%list /\
             qa_question h = q /\ NoDup (qa_documentIds h)) /\
  (snd (qa_ask fts g db q) = [] \/
   exists context, snd (qa_ask fts g db q) = [AskCorpusPrompt context q]).
Proof.
  intros fts g db q.
  assert (Hr : forall c items,
    documents (snd (fst (answer_and_record g db q c items))) = documents db /\
    documentPages (snd (fst (answer_and_record g db q c items))) = documentPages db /\
    embeddings (snd (fst (answer_and_record g db q c items))) = embeddings db /\
    (qaHistory (snd (fst (answer_and_record g db q c items))) = qaHistory db \/
     exists h, qaHistory (snd (fst (answer_and_record g db q c items))) = (qaHistory db ++ [h])%list /\
               qa_question h = q /\ NoDup (qa_documentIds h)) /\
    (snd (answer_and_record g db q c items) = [] \/
     exists context, snd (answer_and_record g db q c items) = [AskCorpusPrompt context q])).
  { intros c items.
    destruct (answer_and_record_effect g db q c items) as [H1 [H2 [H3 [H4 H5]]]].
    repeat split; try assumption; [|right; exists c; exact H5].
    destruct H4 as [H4|[h [H4 [H6 H7]]]]; [left; exact H4|right; exists h].
    repeat split; try assumption. rewrite H7. apply (proj1 (dedup_spec _ [])). }
  unfold qa_ask. destruct (negb (truthy q)).
  { repeat split; [left; reflexivity|left; reflexivity]. }
  destruct (searchEmbeddings fts db q 10) as [|e r]; [|apply Hr].
  destruct (getDocuments db no_filters) as [|d r].
  { repeat split; [left; reflexivity|left; reflexivity]. }
  destruct (fallback_content db (fallback_docs db)) as [|c r'];
    [repeat split; [left; reflexivity|left; reflexivity]|apply Hr].
Qed.

(** ** Page insight *)



(** ** Dashboard statistics *)

Lemma count_status_three : forall ds,
  (count_status ds "processing" + count_status ds "completed" + count_status ds "failed"
   <= List.length ds)%nat.
Proof.
  unfold count_status. induction ds as [|d r IH]; simpl; [lia|].
  destruct (String.eqb_spec (processingStatus d) "processing") as [E1|E1];
  destruct (String.eqb_spec (processingStatus d) "completed") as [E2|E2];
  destruct (String.eqb_spec (processingStatus d) "failed") as [E3|E3];
  simpl; try congruence; lia.
Qed.

Lemma StronglySorted_app_l : forall {A} (R : A -> A -> Prop) l1 l2,
  StronglySorted R (l1 ++ l2) -> StronglySorted R l1.
Proof.
  intros A R l1; induction l1 as [|a r IH]; intros l2 H; [constructor|].
  simpl in H. inversion H as [|a' l' Hs Hf]; subst. constructor; [exact (IH l2 Hs)|].
  apply Forall_app in Hf as [Hf _]. exact Hf.
Qed.

(** X20. GET /api/dashboard/stats: the processing, completed and failed
    counts together never exceed the total; the recent documents are the
    [min(5, total)] newest stored documents, newest first, and every
    stored document left out is no newer than any of them. *)
Theorem getDocumentStats_consistent : forall db,
  (processingDocuments (getDocumentStats db) + completedDocuments (getDocumentStats db) +
   failedDocuments (getDocumentStats db) <= totalDocuments (getDocumentStats db))%nat /\
  List.length (recentDocuments (getDocumentStats db)) =
    Nat.min 5 (totalDocuments (getDocumentStats db)) /\
  StronglySorted newer_or_same (recentDocuments (getDocumentStats db)) /\
  exists rest,
    Permutation (recentDocuments (getDocumentStats db) ++ rest) (documents db) /\
    forall r d, In r (recentDocuments (getDocumentStats db)) -> In d rest -> newer_or_same r d.
Proof.
  intros db. unfold getDocumentStats.
  cbn [processingDocuments completedDocuments failedDocuments totalDocuments recentDocuments].
  pose proof (sort_strongly_sorted (documents db)) as Hs.
  pose proof (sort_perm (documents db)) as Hp.
  split; [apply count_status_three|].
  split; [rewrite length_firstn, (Permutation_length Hp); reflexivity|].
  rewrite <- (firstn_skipn 5 (sort_by_upload_desc (documents db))) in Hs, Hp.
  split.
  - exact (StronglySorted_app_l _ _ _ Hs).
  - exists (skipn 5 (sort_by_upload_desc (documents db))). split; [exact Hp|].
    intros r d Hr Hd. exact (StronglySorted_app_between _ _ _ _ _ Hs Hr Hd).
Qed.

(** ** Upload title *)

Lemma ext_tail_ok_chars : forall r, ext_tail_ok r = true ->
  r <> EmptyString /\
  forall c, In c (list_ascii_of_string r) -> c <> "/"%char /\ c <> "."%char.
Proof.
  induction r as [|c r IH]; intros H; [discriminate|]. split; [discriminate|].
  assert (Hc : c <> "/"%char /\ c <> "."%char).
  { destruct r; simpl in H;
      [|apply andb_true_iff in H as [H _]]; apply andb_true_iff in H as [H1 H2];
      apply negb_true_iff, Ascii.eqb_neq in H1, H2; auto. }
  intros c' [<-|Hin]; [exact Hc|].
  destruct r as [|c0 r0]; [destruct Hin|].
  apply IH; [|exact Hin].
  simpl in H. apply andb_true_iff in H as [_ H]. exact H.
Qed.

(** X21. The title given to an upload ([originalname] with
    [/\.[^/.]+$/] removed) is the file name minus an extension: the name is
    the title followed either by nothing or by a dot and a non-empty
    segment with no [/] and no dot. *)
Theorem upload_title_prefix : forall name,
  exists ext, name = strip_extension name ++ ext /\
    (ext = EmptyString \/
     exists r, ext = String "." r /\ r <> EmptyString /\
       forall c, In c (list_ascii_of_string r) -> c <> "/"%char /\ c <> "."%char).
Proof.
  induction name as [|c r IH]; simpl.
  - exists EmptyString. auto.
  - destruct (Ascii.eqb c "." && ext_tail_ok r) eqn:E.
    + apply andb_true_iff in E as [E1 E2]. apply Ascii.eqb_eq in E1; subst c.
      exists (String "." r). split; [reflexivity|]. right. exists r.
      split; [reflexivity|]. apply ext_tail_ok_chars, E2.
    + destruct IH as [ext [Hr Hx]]. exists ext. split; [|exact Hx].
      simpl. rewrite <- Hr. reflexivity.
Qed.

(** ** The search page *)

Lemma truthy_of_trim : forall s, truthy (js_trim s) = true -> truthy s = true.
Proof. intros [|c s] H; [discriminate H|reflexivity]. Qed.

(** X22. The search page sends a query or a question only when its trimmed
    form is non-empty, and it sends it untrimmed; such a query never gets
    the 400 of POST /api/search and such a question never gets the 400 of
    POST /api/qa/ask. *)
Theorem client_submit_accepted : forall text t,
  client_submit text = Some t ->
  t = text /\
  (forall fts db, search_route fts db t <> err 400 "Query is required") /\
  (forall fts g db, fst (fst (qa_ask fts g db t)) <> err 400 "Question is required").
Proof.
  intros text t H. unfold client_submit in H.
  destruct (truthy (js_trim text)) eqn:E; [|discriminate].
  injection H as <-. apply truthy_of_trim in E.
  split; [reflexivity|]. split.
  - intros fts db. unfold search_route. rewrite E. simpl negb; cbv iota.
    destruct (searchEmbeddings fts db text 20); unfold results_response, err; discriminate.
  - intros fts g db. unfold qa_ask. rewrite E. simpl negb; cbv iota.
    destruct (searchEmbeddings fts db text 10) as [|e r].
    + destruct (getDocuments db no_filters); [discriminate|].
      destruct (fallback_content db (fallback_docs db)); [discriminate|].
      unfold answer_and_record. destruct (parse_reply _ _); discriminate.
    + unfold answer_and_record. destruct (parse_reply _ _); discriminate.
Qed.

Lemma client_submit_accepted_witness :
  client_submit " growth" = Some " growth" /\
  search_route word_fts db_fresh " growth" <> err 400 "Query is required".
Proof.
  split; [reflexivity|].
  apply (proj1 (proj2 (client_submit_accepted " growth" " growth" eq_refl))).
Defined.

(** ** The brace-block extraction of generation replies *)

Lemma str_length_app : forall a b, String.length (a ++ b) = (String.length a + String.length b)%nat.
Proof. induction a as [|c a IH]; intros b; simpl; [reflexivity|rewrite IH; reflexivity]. Qed.

Lemma substring_app_r : forall pre x k m,
  substring (String.length pre + k) m (pre ++ x) = substring k m x.
Proof. induction pre as [|c pre IH]; intros x k m; simpl; [reflexivity|apply IH]. Qed.

Lemma substring_app_prefix : forall a x k,
  substring 0 (String.length a + k) (a ++ x) = a ++ substring 0 k x.
Proof. induction a as [|c a IH]; intros x k; simpl; [reflexivity|rewrite IH; reflexivity]. Qed.

Lemma substring_app_r0 : forall pre x m,
  substring (String.length pre) m (pre ++ x) = substring 0 m x.
Proof. intros. rewrite <- (substring_app_r pre x 0 m), Nat.add_0_r. reflexivity. Qed.

Lemma index_first_char : forall c s i, index 0 (String c EmptyString) s = Some i ->
  exists pre rest, s = pre ++ String c rest /\ String.length pre = i /\
    ~ In c (list_ascii_of_string pre).
Proof.
  intros c s; induction s as [|a s IH]; intros i H; [discriminate H|].
  simpl in H. destruct (ascii_dec c a) as [<-|Hne]; simpl in H.
  - replace (prefix EmptyString s) with true in H by (destruct s; reflexivity).
    injection H as <-. exists EmptyString, s. simpl. auto.
  - destruct (index 0 (String c EmptyString) s) as [n|] eqn:E; [|discriminate H].
    injection H as <-. destruct (IH n eq_refl) as [pre [rest [Hs [Hl Hn]]]].
    exists (String a pre), rest. simpl. rewrite Hs, Hl. split; [reflexivity|split; [reflexivity|]].
    intros [Ha|Hin]; [congruence|contradiction].
Qed.

Lemma last_close_spec : forall u pos best j, last_close u pos best = Some j ->
  (best = Some j /\ ~ In "}"%char (list_ascii_of_string u)) \/
  exists a b, u = a ++ String "}" b /\ j = (pos + String.length a)%nat /\
              ~ In "}"%char (list_ascii_of_string b).
Proof.
  induction u as [|c r IH]; intros pos best j H; simpl in H.
  - left. split; [exact H|intros []].
  - destruct (IH _ _ _ H) as [[Hb Hn]|[a [b [Hr [Hj Hn]]]]].
    + destruct (Ascii.eqb c "}") eqn:E.
      * apply Ascii.eqb_eq in E; subst c. injection Hb as <-.
        right. exists EmptyString, r. simpl. split; [reflexivity|split; [lia|exact Hn]].
      * left. split; [exact Hb|]. apply Ascii.eqb_neq in E.
        simpl. intros [Hc|Hin]; [congruence|contradiction].
    + right. exists (String c a), b. simpl. rewrite Hr.
      split; [reflexivity|split; [lia|exact Hn]].
Qed.

(** X23. The block [/\{[\s\S]*\}/] takes from a generation reply is a
    piece of the reply that starts with [{] and ends with [}]: the reply is
    that piece with a prefix holding no [{] before it and a suffix holding
    no [}] after it (the first [{] to the last [}]). *)
Theorem json_match_block : forall s m, json_match s = Some m ->
  exists pre mid post,
    s = pre ++ m ++ post /\ m = String "{" (mid ++ "}") /\
    ~ In "{"%char (list_ascii_of_string pre) /\ ~ In "}"%char (list_ascii_of_string post).
Proof.
  intros s m H. unfold json_match in H.
  destruct (index 0 "{" s) as [i|] eqn:Ei; [|discriminate H].
  destruct (index_first_char "{" s i Ei) as [pre [rest [Hs [Hl Hpre]]]].
  assert (Hu : substring i (String.length s - i) s = String "{" rest).
  { rewrite Hs, str_length_app, <- Hl.
    replace (String.length pre + String.length (String "{" rest) - String.length pre)%nat
      with (String.length (String "{" rest)) by lia.
    rewrite substring_app_r0. apply substring_whole. }
  rewrite Hu in H.
  destruct (last_close (String "{" rest) 0 None) as [j|] eqn:Ej; [|discriminate H].
  injection H as <-.
  destruct (last_close_spec _ _ _ _ Ej) as [[Hb _]|[a [b [Ha [Hj Hb]]]]]; [discriminate Hb|].
  destruct a as [|c a']; [discriminate Ha|].
  simpl in Ha. injection Ha as Hc Hrest. subst c rest. simpl in Hj. subst j.
  assert (Hm : substring i (S (S (String.length a'))) s = String "{" (a' ++ "}")).
  { rewrite Hs, <- Hl, substring_app_r0. simpl. f_equal.
    replace (S (String.length a')) with (String.length a' + 1)%nat by lia.
    rewrite substring_app_prefix. simpl. rewrite substring_n0. reflexivity. }
  rewrite Hm. exists pre, a', b. split; [|split; [reflexivity|split; assumption]].
  rewrite Hs. f_equal. simpl. f_equal. rewrite str_append_assoc. reflexivity.
Qed.

Lemma json_match_block_witness :
  json_match "Sure: {a} done" = Some "{a}" /\
  exists pre mid post,
    "Sure: {a} done" = pre ++ "{a}" ++ post /\ "{a}" = String "{" (mid ++ "}") /\
    ~ In "{"%char (list_ascii_of_string pre) /\ ~ In "}"%char (list_ascii_of_string post).
Proof.
  split; [reflexivity|]. apply json_match_block. reflexivity.
Defined.

(** ** Case-insensitive substring matching *)



Lemma js_lower_length : forall s, String.length (js_lower s) = String.length s.
Proof. induction s as [|c s IH]; simpl; [reflexivity|rewrite IH; reflexivity]. Qed.

Lemma js_lower_app : forall a b, js_lower (a ++ b) = js_lower a ++ js_lower b.
Proof. induction a as [|c a IH]; intros b; simpl; [reflexivity|rewrite IH; reflexivity]. Qed.


Lemma lower_like_special : forall c, like_special (lower_ascii c) = like_special c.
Proof. intros [[] [] [] [] [] [] [] []]; vm_compute; reflexivity. Qed.

Lemma like_match_plain : forall c f pr d t, like_special c = false ->
  like_match (S f) (String c pr) (String d t) = Ascii.eqb c d && like_match f pr t.
Proof.
  intros [[] [] [] [] [] [] [] []] f pr d t H; try discriminate H; reflexivity.
Qed.

Lemma like_match_end : forall t f, (S (S (String.length t)) <= f)%nat ->
  like_match f (String "%" EmptyString) t = true.
Proof.
  induction t as [|x t IH]; intros [|f] Hf; simpl in Hf; try lia.
  - destruct f; [lia|reflexivity].
  - simpl. apply orb_true_iff. right. apply IH. lia.
Qed.

Lemma like_match_literal : forall q pr t f,
  forallb (fun c => negb (like_special c)) (list_ascii_of_string q) = true ->
  like_match f pr t = true ->
  like_match (String.length q + f) (q ++ pr) (q ++ t) = true.
Proof.
  induction q as [|c q IH]; intros pr t f Hq H; [exact H|].
  simpl in Hq. apply andb_true_iff in Hq as [Hc Hq]. apply negb_true_iff in Hc.
  change (String.length (String c q) + f)%nat with (S (String.length q + f)).
  change (String c q ++ pr) with (String c (q ++ pr)).
  change (String c q ++ t) with (String c (q ++ t)).
  rewrite like_match_plain by exact Hc. rewrite Ascii.eqb_refl. apply IH; assumption.
Qed.

Lemma like_match_skip : forall a pr t f, like_match f pr t = true ->
  like_match (String.length a + S f) (String "%" pr) (a ++ t) = true.
Proof.
  induction a as [|x a IH]; intros pr t f H; simpl.
  - rewrite H. reflexivity.
  - apply orb_true_iff. right. apply IH, H.
Qed.

Lemma forallb_lower : forall q,
  forallb (fun c => negb (like_special c)) (list_ascii_of_string (js_lower q)) =
  forallb (fun c => negb (like_special c)) (list_ascii_of_string q).
Proof. induction q as [|c q IH]; simpl; [reflexivity|rewrite lower_like_special, IH; reflexivity]. Qed.

(** X25. The pattern [%query%] that the substring search tier and the
    document search filter build finds every text that contains the query,
    whenever the query holds none of the pattern characters [%], [_] and
    backslash. *)
Theorem ilike_finds_substring : forall a q b,
  forallb (fun c => negb (like_special c)) (list_ascii_of_string q) = true ->
  ilike (a ++ q ++ b) ("%" ++ q ++ "%") = true.
Proof.
  intros a q b Hq. unfold ilike.
  rewrite !js_lower_app. simpl js_lower.
  rewrite <- forallb_lower in Hq.
  set (la := js_lower a) in *. set (lq := js_lower q) in *. set (lb := js_lower b) in *.
  change (lower_ascii "%") with "%"%char.
  rewrite !str_length_app. simpl String.length.
  rewrite <- (js_lower_length a), <- (js_lower_length q), <- (js_lower_length b).
  fold la lq lb.
  match goal with
  | |- like_match ?F _ _ = true =>
      replace F with (String.length la + S (String.length lq +
                        (String.length lq + String.length lb + 2)))%nat by lia
  end.
  apply like_match_skip, like_match_literal; [exact Hq|].
  apply like_match_end. lia.
Qed.

Lemma ilike_finds_substring_witness :
  ilike ("Net " ++ "Profit" ++ " rose") ("%" ++ "Profit" ++ "%") = true.
Proof. apply ilike_finds_substring. reflexivity. Defined.

(** ** Documents other than PDFs *)

Lemma extract_non_pdf : forall env ft, String.eqb ft "application/pdf" = false ->
  exists t, In t ["Excel/CSV content extraction not yet implemented.";
                  "Image OCR not yet implemented.";
                  "Unsupported document type for text extraction."] /\
            extract env ft = (t, 1, [t]).
Proof.
  intros env ft H. unfold extract. rewrite H.
  destruct (includes ft "spreadsheet" || includes ft "excel");
    [|destruct (includes ft "image")]; eexists; split; try reflexivity; simpl; auto.
Qed.

(** X26. A document that is not a PDF gets no text extracted: once the
    file is downloaded, the run stores exactly one page row, page 1, whose
    text is one of the fixed placeholder messages (spreadsheet, image or
    unsupported type), and completes the document with that message as its
    full text and a page count of 1. *)
Theorem processDocument_non_pdf : forall env i db d,
  getDocument db i = Some d -> download env = Ok ->
  fileType d <> "application/pdf" -> pages_of db i = [] ->
  exists t, In t ["Excel/CSV content extraction not yet implemented.";
                  "Image OCR not yet implemented.";
                  "Unsupported document type for text extraction."] /\
    pages_of (processDocument env i db) i = [mkDocumentPage i 1 (Some t)] /\
    option_map (fun d' => (processingStatus d', fullText d', pageCount d'))
      (getDocument (processDocument env i db) i) = Some ("completed", Some t, Some 1).
Proof.
  intros env i db d Hd Hdl Hft Hp.
  assert (Hf : fileType (apply_set d (SetProcessingStatus "processing")) = fileType d)
    by (destruct d; reflexivity).
  destruct (extract_non_pdf env (fileType d)) as [t [Hin Hext]];
    [apply String.eqb_neq, Hft|].
  exists t. split; [exact Hin|]. split.
  - rewrite (processDocument_pages env i db Hp). unfold run_page_texts.
    rewrite getDocument_update, Hd. cbn [option_map fold_left]. rewrite Hdl, Hf, Hext.
    simpl snd. destruct Hin as [<-|[<-|[<-|[]]]]; reflexivity.
  - unfold processDocument. rewrite getDocument_update, Hd. cbn [option_map fold_left].
    rewrite Hdl, Hf, Hext.
    rewrite getDocument_update, getDocument_index_pages, getDocument_update, Hd.
    destruct d; reflexivity.
Qed.

Lemma processDocument_non_pdf_witness :
  exists t, In t ["Excel/CSV content extraction not yet implemented.";
                  "Image OCR not yet implemented.";
                  "Unsupported document type for text extraction."] /\
    pages_of (processDocument (pdf_env "x" 1) 4
                (mkDB [mkDocument 4 "Sheet" "s.csv" "/objects/uploads/4" 10 "text/csv" "pending"
                         None None None None None None None 5 None] [] [] [])) 4 =
      [mkDocumentPage 4 1 (Some t)] /\
    option_map (fun d' => (processingStatus d', fullText d', pageCount d'))
      (getDocument (processDocument (pdf_env "x" 1) 4
                (mkDB [mkDocument 4 "Sheet" "s.csv" "/objects/uploads/4" 10 "text/csv" "pending"
                         None None None None None None None 5 None] [] [] [])) 4) =
      Some ("completed", Some t, Some 1).
Proof.
  apply (processDocument_non_pdf (pdf_env "x" 1) 4 _
           (mkDocument 4 "Sheet" "s.csv" "/objects/uploads/4" 10 "text/csv" "pending"
              None None None None None None None 5 None));
    [reflexivity|reflexivity|discriminate|reflexivity].
Defined.

(** ** Search by document title *)

(** X27. Every row of the document-title fallback of POST /api/search is a
    stored document whose title or original file name contains the query
    (compared with [ILIKE]): its id and title are that document's, and it
    is reported as page 1 with score 1. *)
Theorem title_fallback_rows : forall db q r, In r (title_fallback db q) ->
  exists d, In d (documents db) /\
    filter_cond (mkFilters None None (Some q)) d = true /\
    r_documentId r = id d /\ r_documentTitle r = title d /\
    r_pageNumber r = 1 /\ r_score r = 1.
Proof.
  intros db q r H. unfold title_fallback in H.
  apply in_map_iff in H as [d [<- Hd]].
  apply in_firstn_in in Hd. unfold getDocuments in Hd.
  apply (Permutation_in _ (sort_perm _)), filter_In in Hd as [Hin Hc].
  exists d. repeat split; assumption || reflexivity.
Qed.

Lemma title_fallback_rows_witness :
  exists d, In d (documents db_fresh) /\
    filter_cond (mkFilters None None (Some "memo")) d = true /\
    r_documentId (mkResult 2 "Old memo" (Some "research_note") 1 "Revenue grew." 1) = id d /\
    r_documentTitle (mkResult 2 "Old memo" (Some "research_note") 1 "Revenue grew." 1) = title d /\
    r_pageNumber (mkResult 2 "Old memo" (Some "research_note") 1 "Revenue grew." 1) = 1 /\
    r_score (mkResult 2 "Old memo" (Some "research_note") 1 "Revenue grew." 1) = 1.
Proof. apply (title_fallback_rows db_fresh "memo"). vm_compute. left; reflexivity. Defined.

(** ** Storage writes *)





Example ex_parse1 : JSON_parse ("{" ++ dq ++ "a" ++ dq ++ ": [1, -2.5e3, true, null]}")
  = Some (JObj [("a", JArr [JNum "1"; JNum "-2.5e3"; JBool true; JNull])]).
Proof. reflexivity. Qed.
Example ex_parse2 : JSON_parse "{oops}" = None.
Proof. reflexivity. Qed.
